(** * AgroSmart storefront: authorization gates, order workflow, catalog and
    sign-in handlers.

    A shallow embedding of the handlers of [src/App.tsx],
    [src/pages/AdminPage.tsx] and [src/pages/AuthPage.tsx].

    - JavaScript objects (table rows, update payloads, request bodies) are
      finite maps from property names to values.
    - Every handler is a program in a small monad that threads the page
      state and the external record store, may throw, and records each
      externally visible action (record-store call, function invocation,
      toast, console message, navigation) in the order it is issued.
    - The answers of the external services (record store, notification
      function, session store) are inputs: an [Env] per handler call. *)

From Stdlib Require Import QArith.
From stdpp Require Import gmap strings list fin_maps.

Local Open Scope string_scope.
Local Open Scope list_scope.
Local Open Scope nat_scope.

(** ** JavaScript values *)

(** A JavaScript [number]: the finite doubles, embedded in the rationals,
    the two infinities and NaN.  Only the sign and zero tests are used. *)
Inductive number :=
| NaN
| PosInf
| NegInf
| Num (q : Q).

(** [interface ShippingAddress]: every field is optional. *)
Record ShippingAddress := mkShippingAddress {
  fullName : option string;
  address : option string;
  city : option string;
  state : option string;
  pincode : option string;
  phone : option string;
}.

Inductive jsval :=
| JNull
| JBool (b : bool)
| JNumber (n : number)
| JString (s : string)
| JAddress (a : ShippingAddress).

(** A row of a table, an update payload, a request body: a JavaScript
    object used as a map from property names to values.  A missing key is
    an [undefined] property. *)
Abbreviation row := (gmap string jsval).

(** Truthiness, as tested by [if (x)], [!x] and [x || y]. *)
Definition number_truthy (n : number) : bool :=
  match n with
  | NaN => false
  | PosInf | NegInf => true
  | Num q => negb (Qeq_bool q 0)
  end.

Definition string_truthy (s : string) : bool :=
  match s with
  | EmptyString => false
  | String _ _ => true
  end.

Definition truthy (v : option jsval) : bool :=
  match v with
  | None | Some JNull => false
  | Some (JBool b) => b
  | Some (JNumber n) => number_truthy n
  | Some (JString s) => string_truthy s
  | Some (JAddress _) => true
  end.

(** [0 < n] on JavaScript numbers. *)
Definition number_positive (n : number) : bool :=
  match n with
  | NaN | NegInf => false
  | PosInf => true
  | Num q => negb (Qle_bool q 0)
  end.

(** ** The length of a JavaScript string

    A JavaScript string is a sequence of UTF-16 code units and [s.length]
    counts them.  A string of this file holds the UTF-8 bytes of the text:
    a code point of one, two or three bytes is one code unit, a code point
    of four bytes is two.  A byte that does not continue a code point counts
    as a code point of its own. *)
Definition continuation_byte (b : nat) : bool := (128 <=? b) && (b <? 192).

(** The number of bytes that follow a first byte [b] of a code point. *)
Definition trailing_bytes (b : nat) : nat :=
  if b <? 192 then 0
  else if b <? 224 then 1
  else if b <? 240 then 2
  else if b <? 248 then 3
  else 0.

(** [expect] bytes of the current code point are still to come; [astral]
    says that it is a code point of four bytes, whose second code unit is
    counted at its last byte. *)
Fixpoint js_length_from (expect : nat) (astral : bool) (s : string) : nat :=
  match s with
  | EmptyString => 0
  | String c s' =>
      let b := Ascii.nat_of_ascii c in
      match expect with
      | S k =>
          if continuation_byte b
          then (if astral && (k =? 0) then 1 else 0) + js_length_from k astral s'
          else 1 + js_length_from (trailing_bytes b) (trailing_bytes b =? 3) s'
      | 0 => 1 + js_length_from (trailing_bytes b) (trailing_bytes b =? 3) s'
      end
  end.

(** [s.length] *)
Definition js_length (s : string) : nat := js_length_from 0 false s.

(** ** Externally visible actions *)

Inductive Event :=
| DbSelect (table : string)
    (* supabase.from(table).select('*').order('created_at', ...) *)
| DbInsert (table : string) (rows : list row)
    (* supabase.from(table).insert(rows) *)
| DbUpdate (table : string) (patch : row) (id : string)
    (* supabase.from(table).update(patch).eq('id', id) *)
| DbDelete (table : string) (id : string)
    (* supabase.from(table).delete().eq('id', id) *)
| FnInvoke (fn : string) (body : row)
    (* supabase.functions.invoke(fn, { body }) *)
| AuthSignUp (email password name : string)
| AuthSignIn (email password : string)
| ToastError (msg : string)
| ToastSuccess (msg : string)
| ConsoleError (args : list string)
| NavigateTo (path : string) (replace : bool).

Definition is_write (ev : Event) : bool :=
  match ev with
  | DbInsert _ _ | DbUpdate _ _ _ | DbDelete _ _ => true
  | _ => false
  end.

Definition is_external_call (ev : Event) : bool :=
  match ev with
  | DbSelect _ | DbInsert _ _ | DbUpdate _ _ _ | DbDelete _ _
  | FnInvoke _ _ | AuthSignUp _ _ _ | AuthSignIn _ _ => true
  | _ => false
  end.

Definition is_notify (ev : Event) : bool :=
  match ev with
  | FnInvoke fn _ => String.eqb fn "send-order-notification"
  | _ => false
  end.

Definition is_navigate (ev : Event) : bool :=
  match ev with NavigateTo _ _ => true | _ => false end.

Definition is_toast_error (ev : Event) : bool :=
  match ev with ToastError _ => true | _ => false end.

Fixpoint count (p : Event → bool) (tr : list Event) : nat :=
  match tr with
  | [] => 0
  | ev :: tr' => (if p ev then 1 else 0) + count p tr'
  end.

(** ** The external record store

    The store is an external service reached by request/response calls; no
    code of it is in the repository.  Its tables are keyed by opaque ids. *)
Abbreviation table := (gmap string row).
Abbreviation database := (gmap string table).

Definition db_table (t : string) (db : database) : table :=
  default ∅ (db !! t).

(** Modelled from the spec: the effect of [update(patch).eq('id', id)] in the
    store, which is not part of the sources.  The update is a partial patch:
    on the row with that id it overwrites the columns named in [patch] and
    no other; with no such row it changes nothing. *)
Definition db_update (t : string) (patch : row) (id : string)
    (db : database) : database :=
  alter (alter (λ r : row, patch ∪ r) id) t db.

(** Modelled from the spec: the effect of [insert([r])] in the store, which
    is not part of the sources.  The row is added under an id chosen by the
    store. *)
Definition db_insert (t : string) (id : string) (r : row)
    (db : database) : database :=
  <[t := <[id := <["id" := JString id]> r]> (db_table t db)]> db.

(** ** Answers of the external services *)

(** A promise either resolves or rejects. *)
Inductive Outcome (A : Type) :=
| Resolved (a : A)
| Rejected (exn : string).
Arguments Resolved {A} a.
Arguments Rejected {A} exn.

(** The [{ data, error }] object every supabase call resolves to. *)
Record Response := mkResponse {
  data : option (list row);
  error : option string;
}.

Record Env := mkEnv {
  select_products : Outcome Response;
  select_orders : Outcome Response;
  insert_products : Outcome Response;
  insert_id : string;
  update_orders : Outcome Response;
  invoke_notification : Outcome Response;
  signUp_result : Outcome Response;
  signIn_result : Outcome Response;
}.

(** ** The handler monad *)

(** Async functions started without [await]: their request is issued at
    once, the rest runs after the caller yields. *)
Inductive Task :=
| ResumeFetchProducts
| ResumeFetchOrders.

Record World (S : Type) := mkWorld {
  ui : S;
  db : database;
  pending : list Task;
}.
Arguments mkWorld {S} ui db pending.
Arguments ui {S} w.
Arguments db {S} w.
Arguments pending {S} w.

Inductive Result (A : Type) :=
| Ok (a : A)
| Throw (exn : string).
Arguments Ok {A} a.
Arguments Throw {A} exn.

Definition M (S A : Type) : Type := World S → Result A * World S * list Event.

Definition ret {S A} (a : A) : M S A := λ w, (Ok a, w, []).

Definition bind {S A B} (m : M S A) (k : A → M S B) : M S B :=
  λ w,
    match m w with
    | (Ok a, w1, tr1) =>
        match k a w1 with
        | (r, w2, tr2) => (r, w2, tr1 ++ tr2)
        end
    | (Throw exn, w1, tr1) => (Throw exn, w1, tr1)
    end.

Global Instance M_ret {S} : MRet (M S) := λ A, @ret S A.
Global Instance M_bind {S} : MBind (M S) := λ A B k m, @bind S A B m k.

Definition throw {S A} (exn : string) : M S A := λ w, (Throw exn, w, []).

(** [try { m } catch (e) { h e }] *)
Definition try_catch {S A} (m : M S A) (h : string → M S A) : M S A :=
  λ w,
    match m w with
    | (Throw exn, w1, tr1) =>
        match h exn w1 with
        | (r, w2, tr2) => (r, w2, tr1 ++ tr2)
        end
    | res => res
    end.

(** [try { m } finally { f }]: [f] runs on every exit of [m]; the
    completion of [m] stands unless [f] itself throws. *)
Definition try_finally {S A} (m : M S A) (f : M S unit) : M S A :=
  λ w,
    match m w with
    | (r, w1, tr1) =>
        match f w1 with
        | (Ok _, w2, tr2) => (r, w2, tr1 ++ tr2)
        | (Throw exn, w2, tr2) => (Throw exn, w2, tr1 ++ tr2)
        end
    end.

Definition emit {S} (ev : Event) : M S unit := λ w, (Ok tt, w, [ev]).

Definition await {S A} (o : Outcome A) : M S A :=
  match o with
  | Resolved a => ret a
  | Rejected exn => throw exn
  end.

Definition get_ui {S} : M S S := λ w, (Ok (ui w), w, []).

Definition set_ui {S} (f : S → S) : M S unit :=
  λ w, (Ok tt, mkWorld (f (ui w)) (db w) (pending w), []).

Definition store_apply {S} (f : database → database) : M S unit :=
  λ w, (Ok tt, mkWorld (ui w) (f (db w)) (pending w), []).

Definition defer {S} (t : Task) : M S unit :=
  λ w, (Ok tt, mkWorld (ui w) (db w) (pending w ++ [t]), []).

Definition when {S} (b : bool) (m : M S unit) : M S unit :=
  if b then m else ret tt.

(** The call resolved without an error.  A write takes effect in the store
    exactly then. *)
Definition resolved_ok (o : Outcome Response) : bool :=
  match o with
  | Resolved r => if error r is None then true else false
  | Rejected _ => false
  end.

Definition toast_error {S} (msg : string) : M S unit := emit (ToastError msg).
Definition toast_success {S} (msg : string) : M S unit := emit (ToastSuccess msg).
Definition console_error {S} (args : list string) : M S unit :=
  emit (ConsoleError args).

(** [await supabase.from(t).update(patch).eq('id', id)] *)
Definition supabase_update {S} (o : Outcome Response) (t : string)
    (patch : row) (id : string) : M S Response :=
  emit (DbUpdate t patch id);;
  when (resolved_ok o) (store_apply (db_update t patch id));;
  await o.

(** [await supabase.from(t).insert([r])] *)
Definition supabase_insert {S} (o : Outcome Response) (new_id : string)
    (t : string) (r : row) : M S Response :=
  emit (DbInsert t [r]);;
  when (resolved_ok o) (store_apply (db_insert t new_id r));;
  await o.

(** [await supabase.functions.invoke(fn, { body })] *)
Definition functions_invoke {S} (o : Outcome Response) (fn : string)
    (body : row) : M S Response :=
  emit (FnInvoke fn body);;
  await o.

(** ** Running a handler *)

Definition result {S A} (x : Result A * World S * list Event) : Result A := x.1.1.
Definition final {S A} (x : Result A * World S * list Event) : World S := x.1.2.
Definition events {S A} (x : Result A * World S * list Event) : list Event := x.2.

(** ** [src/pages/AdminPage.tsx] *)
Module AdminPage.

(** The shape of the [newProduct] form state (a [Product] without id). *)
Record NewProduct := mkNewProduct {
  name : string;
  description : string;
  price : number;          (* parseFloat(e.target.value) *)
  image_url : string;
  category : string;
  stock : number;          (* parseInt(e.target.value) *)
  unit : string;
  is_active : bool;
}.

(** The object literal [newProduct] as handed to [insert]. *)
Definition newProduct_row (p : NewProduct) : row :=
  {[ "name" := JString (name p);
     "description" := JString (description p);
     "price" := JNumber (price p);
     "image_url" := JString (image_url p);
     "category" := JString (category p);
     "stock" := JNumber (stock p);
     "unit" := JString (unit p);
     "is_active" := JBool (is_active p) ]}.

Definition initialProduct : NewProduct :=
  mkNewProduct "" "" (Num 0) "" "Seeds" (Num 0) "kg" true.

(** The [useState] cells of the component. *)
Record State := mkState {
  products : list row;
  orders : list row;
  loading : bool;
  showAddProduct : bool;
  newProduct : NewProduct;
}.

Definition setProducts (v : list row) (s : State) : State :=
  mkState v (orders s) (loading s) (showAddProduct s) (newProduct s).
Definition setOrders (v : list row) (s : State) : State :=
  mkState (products s) v (loading s) (showAddProduct s) (newProduct s).
Definition setLoading (v : bool) (s : State) : State :=
  mkState (products s) (orders s) v (showAddProduct s) (newProduct s).
Definition setShowAddProduct (v : bool) (s : State) : State :=
  mkState (products s) (orders s) (loading s) v (newProduct s).
Definition setNewProduct (v : NewProduct) (s : State) : State :=
  mkState (products s) (orders s) (loading s) (showAddProduct s) v.

Definition statusOptions : list string :=
  ["pending"; "confirmed"; "processing"; "packed"; "shipped"; "delivered";
   "cancelled"].

(** *** fetchProducts, fetchOrders *)

(** The part of [fetchProducts] after its [await]. *)
Definition fetchProducts_resume (o : Outcome Response) : M State () :=
  r ← await o;
  match error r with
  | Some e =>
      toast_error "Failed to fetch products";;
      console_error [e]
  | None => set_ui (setProducts (default [] (data r)))
  end;;
  set_ui (setLoading false).

Definition fetchProducts (env : Env) : M State () :=
  emit (DbSelect "products");;
  fetchProducts_resume (select_products env).

(** [{ ...order, shipping_address: order.shipping_address || {} }] *)
Definition mapOrder (order : row) : row :=
  <["shipping_address" :=
      if truthy (order !! "shipping_address")
      then default JNull (order !! "shipping_address")
      else JAddress (mkShippingAddress None None None None None None)]> order.

(** The part of [fetchOrders] after its [await]. *)
Definition fetchOrders_resume (o : Outcome Response) : M State () :=
  r ← await o;
  match error r with
  | Some e =>
      toast_error "Failed to fetch orders";;
      console_error [e]
  | None => set_ui (setOrders (mapOrder <$> default [] (data r)))
  end.

Definition fetchOrders (env : Env) : M State () :=
  emit (DbSelect "orders");;
  fetchOrders_resume (select_orders env).

(** [fetchProducts()] and [fetchOrders()] called without [await]: the
    select is issued, the rest is left pending. *)
Definition start_fetchProducts : M State () :=
  emit (DbSelect "products");;
  defer ResumeFetchProducts.

Definition start_fetchOrders : M State () :=
  emit (DbSelect "orders");;
  defer ResumeFetchOrders.

Definition run_task (env : Env) (t : Task) : M State () :=
  match t with
  | ResumeFetchProducts => fetchProducts_resume (select_products env)
  | ResumeFetchOrders => fetchOrders_resume (select_orders env)
  end.

(** [useEffect(() => { if (isAdmin) { fetchProducts(); fetchOrders(); } })] *)
Definition useEffect_load (isAdmin : bool) : M State () :=
  when isAdmin (start_fetchProducts;; start_fetchOrders).

(** *** handleAddProduct *)

Definition handleAddProduct (env : Env) : M State () :=
  s ← get_ui;
  let np := newProduct s in
  if negb (string_truthy (name np)) || negb (number_truthy (price np)) then
    toast_error "Please fill in required fields"
  else
    r ← supabase_insert (insert_products env) (insert_id env) "products"
          (newProduct_row np);
    match error r with
    | Some e =>
        toast_error "Failed to add product";;
        console_error [e]
    | None =>
        toast_success "Product added successfully";;
        set_ui (setShowAddProduct false);;
        set_ui (setNewProduct initialProduct);;
        start_fetchProducts
    end.

(** *** handleUpdateOrderStatus *)

(** [trackingNumber?: string]: [None] is an omitted argument. *)
Definition tracking_truthy (trackingNumber : option string) : bool :=
  match trackingNumber with
  | Some t => string_truthy t
  | None => false
  end.

(** [const updateData = { status };
     if (trackingNumber) updateData.tracking_number = trackingNumber;] *)
Definition updateData (status : string) (trackingNumber : option string) : row :=
  match trackingNumber with
  | Some t =>
      if string_truthy t
      then <["tracking_number" := JString t]> {[ "status" := JString status ]}
      else {[ "status" := JString status ]}
  | None => {[ "status" := JString status ]}
  end.

(** [{ orderId, newStatus: status, trackingNumber: trackingNumber || undefined }] *)
Definition notificationBody (orderId status : string)
    (trackingNumber : option string) : row :=
  match trackingNumber with
  | Some t =>
      if string_truthy t
      then {[ "orderId" := JString orderId; "newStatus" := JString status;
              "trackingNumber" := JString t ]}
      else {[ "orderId" := JString orderId; "newStatus" := JString status ]}
  | None => {[ "orderId" := JString orderId; "newStatus" := JString status ]}
  end.

(** The status argument has the type [Order['status']] at compile time; at
    run time it is the string handed over by the caller
    ([e.target.value as Order['status']]). *)
Definition handleUpdateOrderStatus (env : Env) (orderId status : string)
    (trackingNumber : option string) : M State () :=
  r ← supabase_update (update_orders env) "orders"
        (updateData status trackingNumber) orderId;
  match error r with
  | Some e =>
      toast_error "Failed to update order";;
      console_error [e]
  | None =>
      toast_success "Order updated successfully";;
      start_fetchOrders;;
      try_catch
        (response ← functions_invoke (invoke_notification env)
                      "send-order-notification"
                      (notificationBody orderId status trackingNumber);
         match error response with
         | Some e =>
             console_error ["Email notification failed:"; e];;
             toast_error "Order updated but email notification failed"
         | None => toast_success "Customer notified via email"
         end)
        (λ emailError,
           console_error ["Failed to send email notification:"; emailError])
  end.

(** The notification did not go through: the call resolved with its error
    flag set, or the promise was rejected. *)
Definition notification_failed (o : Outcome Response) : bool :=
  match o with
  | Resolved r => if error r is Some _ then true else false
  | Rejected _ => true
  end.

(** What the handler emits after the write, when the write went through. *)
Definition after_commit (env : Env) (orderId status : string)
    (trackingNumber : option string) : list Event :=
  ToastSuccess "Order updated successfully" ::
  DbSelect "orders" ::
  FnInvoke "send-order-notification"
    (notificationBody orderId status trackingNumber) ::
  match invoke_notification env with
  | Resolved response =>
      match error response with
      | Some e =>
          [ConsoleError ["Email notification failed:"; e];
           ToastError "Order updated but email notification failed"]
      | None => [ToastSuccess "Customer notified via email"]
      end
  | Rejected x => [ConsoleError ["Failed to send email notification:"; x]]
  end.

(** A transition call with the answers it meets, and a run of such calls
    one after the other. *)
Record Call := mkCall {
  call_env : Env;
  call_orderId : string;
  call_status : string;
  call_trackingNumber : option string;
}.

Definition transition (w : World State) (c : Call) : World State :=
  final (handleUpdateOrderStatus (call_env c) (call_orderId c) (call_status c)
           (call_trackingNumber c) w).

Definition transitions (calls : list Call) (w : World State) : World State :=
  foldl transition w calls.

(** The guard [!newProduct.name || !newProduct.price]. *)
Definition required_missing (np : NewProduct) : bool :=
  negb (string_truthy (name np)) || negb (number_truthy (price np)).

Definition with_newProduct (np : NewProduct) (w : World State) : World State :=
  mkWorld (setNewProduct np (ui w)) (db w) (pending w).

End AdminPage.

(** ** [src/App.tsx] *)
Module App.

(** What [useAuth()] hands to the routes: the session store's current
    account, role flag and loading flag.  The session store
    ([contexts/AuthContext]) is not among the sources; its values are
    inputs. *)
Record AuthContext := mkAuthContext {
  user : option string;
  isAdmin : bool;
  loading : bool;
}.

Inductive Page :=
| Index | AuthPage | CropPrediction | Analytics | Shop | Contact
| PredictionHistory | Cart | Checkout | Orders | AdminPage | NotFound.

(** What a route renders: the spinner, [<Navigate to=... replace />], or a
    page. *)
Inductive Element :=
| Spinner
| Navigate (to : string) (replace : bool)
| Show (p : Page).

Definition ProtectedRoute (ctx : AuthContext) (children : Element) : Element :=
  if loading ctx then Spinner
  else if user ctx is None then Navigate "/auth" true
  else children.

Definition AdminRoute (ctx : AuthContext) (children : Element) : Element :=
  if loading ctx then Spinner
  else if (if user ctx is None then true else false) || negb (isAdmin ctx)
  then Navigate "/" true
  else children.

(** The [<Routes>] table of [AppContent], read by the [path] of the route
    that the router selects for the location.  Matching a location against
    these patterns is the work of the router, which is not modelled; any
    other pattern stands for the catch-all route [path="*"]. *)
Definition AppContent (ctx : AuthContext) (path : string) : Element :=
  if String.eqb path "/" then Show Index
  else if String.eqb path "/auth" then
    (if user ctx is Some _ then Navigate "/" true else Show AuthPage)
  else if String.eqb path "/predict" then Show CropPrediction
  else if String.eqb path "/analytics" then Show Analytics
  else if String.eqb path "/shop" then Show Shop
  else if String.eqb path "/contact" then Show Contact
  else if String.eqb path "/history" then ProtectedRoute ctx (Show PredictionHistory)
  else if String.eqb path "/cart" then ProtectedRoute ctx (Show Cart)
  else if String.eqb path "/checkout" then ProtectedRoute ctx (Show Checkout)
  else if String.eqb path "/orders" then ProtectedRoute ctx (Show Orders)
  else if String.eqb path "/admin" then AdminRoute ctx (Show AdminPage)
  else Show NotFound.

(** The outcome of a gate, read off what it renders. *)
Inductive Decision :=
| Allow
| Deny (fallback : string)
| Pending.

Definition decision (e : Element) : Decision :=
  match e with
  | Spinner => Pending
  | Navigate to _ => Deny to
  | Show _ => Allow
  end.

(** Visiting [/admin]: the admin page is mounted, and its [useEffect] runs,
    only when the route shows it. *)
Definition visit_admin (ctx : AuthContext) : M AdminPage.State () :=
  match AppContent ctx "/admin" with
  | Show AdminPage => AdminPage.useEffect_load (isAdmin ctx)
  | _ => mret ()
  end.

(** The routes of [AppContent] that sit behind a gate. *)
Definition gated_paths : list string :=
  ["/history"; "/cart"; "/checkout"; "/orders"; "/admin"].

End App.

(** ** [src/pages/AuthPage.tsx] *)
Module AuthPage.

Record FormData := mkFormData {
  name : string;
  email : string;
  password : string;
}.

(** The [useState] cells of the component. *)
Record State := mkState {
  isSignup : bool;
  showPassword : bool;
  submitting : bool;
  formData : FormData;
  errors : gmap string string;
}.

Definition setSubmitting (v : bool) (s : State) : State :=
  mkState (isSignup s) (showPassword s) v (formData s) (errors s).
Definition setErrors (v : gmap string string) (s : State) : State :=
  mkState (isSignup s) (showPassword s) (submitting s) (formData s) v.

Section Validation.

(** [z.string().email()]: the syntax check of the zod library, which is not
    part of the repository. *)
Variable email_ok : string → bool.

(** A zod issue: the field it is about and its message. *)
Definition Issue : Type := string * string.

(** [z.string().min(n, msg)] on a field: [value.length < n] is an issue. *)
Definition min_length (field : string) (n : nat) (msg : string)
    (value : string) : list Issue :=
  if js_length value <? n then [(field, msg)] else [].

Definition email_check (field msg value : string) : list Issue :=
  if email_ok value then [] else [(field, msg)].

(** [schema.safeParse(formData)]: the issues, in field order; none means
    [result.success]. *)
Definition signupSchema (f : FormData) : list Issue :=
  min_length "name" 2 "Name must be at least 2 characters" (name f) ++
  email_check "email" "Invalid email address" (email f) ++
  min_length "password" 6 "Password must be at least 6 characters" (password f).

Definition loginSchema (f : FormData) : list Issue :=
  email_check "email" "Invalid email address" (email f) ++
  min_length "password" 1 "Password is required" (password f).

(** [result.error.errors.forEach(err => fieldErrors[err.path[0]] = err.message)] *)
Definition fieldErrors (issues : list Issue) : gmap string string :=
  foldl (λ acc (err : Issue), <[err.1 := err.2]> acc) ∅ issues.

Definition navigate (path : string) (replace : bool) : M State () :=
  emit (NavigateTo path replace).

(** [await signUp(email, password, name)], [await signIn(email, password)]:
    calls into the session store. *)
Definition signUp (o : Outcome Response) (email password name : string)
    : M State Response :=
  emit (AuthSignUp email password name);;
  await o.

Definition signIn (o : Outcome Response) (email password : string)
    : M State Response :=
  emit (AuthSignIn email password);;
  await o.

Definition handleSubmit (env : Env) : M State () :=
  s ← get_ui;
  let formData := formData s in
  set_ui (setSubmitting true);;
  set_ui (setErrors ∅);;
  try_finally
    (try_catch
       (if isSignup s then
          match signupSchema formData with
          | (_ :: _) as issues => set_ui (setErrors (fieldErrors issues))
          | [] =>
              r ← signUp (signUp_result env) (email formData)
                    (password formData) (name formData);
              match error r with
              | Some message => toast_error message
              | None =>
                  toast_success "Account created successfully!";;
                  navigate "/" true
              end
          end
        else
          match loginSchema formData with
          | (_ :: _) as issues => set_ui (setErrors (fieldErrors issues))
          | [] =>
              r ← signIn (signIn_result env) (email formData)
                    (password formData);
              match error r with
              | Some _ => toast_error "Invalid email or password"
              | None =>
                  toast_success "Welcome back!";;
                  navigate "/" true
              end
          end)
       (λ _, toast_error "Something went wrong. Please try again."))
    (set_ui (setSubmitting false)).

(** The submission passes the local schema and the session store answers
    without error. *)
Definition submission_succeeds (env : Env) (s : State) : bool :=
  if isSignup s
  then (if signupSchema (formData s) is [] then true else false)
       && resolved_ok (signUp_result env)
  else (if loginSchema (formData s) is [] then true else false)
       && resolved_ok (signIn_result env).

End Validation.

End AuthPage.


(** A stored column of a stored row; [None] when the row or the column is
    missing. *)
Definition stored (t id col : string) (d : database) : option jsval :=
  db_table t d !! id ≫= (.!! col).

(** ** Sample data *)

Definition order7 : row :=
  {[ "id" := JString "7";
     "user_id" := JString "u-asha";
     "status" := JString "pending";
     "total_amount" := JNumber (Num 1250);
     "shipping_address" :=
       JAddress (mkShippingAddress (Some "Asha") None (Some "Pune") None None None);
     "tracking_number" := JNull;
     "notes" := JNull;
     "created_at" := JString "2024-01-05T10:00:00Z" ]}.

Definition order8 : row :=
  <["tracking_number" := JString "T123"]> (<["id" := JString "8"]> order7).

Definition db0 : database :=
  {[ "orders" := {[ "7" := order7; "8" := order8 ]}; "products" := ∅ ]}.

Definition ok : Outcome Response := Resolved (mkResponse None None).
Definition failed (msg : string) : Outcome Response :=
  Resolved (mkResponse None (Some msg)).

(** Every service answers without error. *)
Definition env_ok : Env := mkEnv ok ok ok "p-1" ok ok ok ok.

Definition with_update (o : Outcome Response) (env : Env) : Env :=
  mkEnv (select_products env) (select_orders env) (insert_products env)
    (insert_id env) o (invoke_notification env) (signUp_result env)
    (signIn_result env).

Definition with_notification (o : Outcome Response) (env : Env) : Env :=
  mkEnv (select_products env) (select_orders env) (insert_products env)
    (insert_id env) (update_orders env) o (signUp_result env)
    (signIn_result env).

Definition admin0 : World AdminPage.State :=
  mkWorld (AdminPage.mkState [] [] true false AdminPage.initialProduct) db0 [].

(** A fertilizer entered with a negative price. *)
Definition urea_negative : AdminPage.NewProduct :=
  AdminPage.mkNewProduct "Urea" "46% N" (Num (-5)) "" "Fertilizers" (Num 10) "kg" true.

Definition urea : AdminPage.NewProduct :=
  AdminPage.mkNewProduct "Urea" "46% N" (Num 266.5) "" "Fertilizers" (Num 10) "kg" true.

Definition auth0 (signup : bool) (f : AuthPage.FormData)
    : World AuthPage.State :=
  mkWorld (AuthPage.mkState signup false false f ∅) db0 [].

(** A stand-in for the email check: some character is an at-sign. *)
Definition has_at (s : string) : bool :=
  if String.index 0 "@" s is Some _ then true else false.

Definition asha : AuthPage.FormData :=
  AuthPage.mkFormData "Asha" "asha@x.com" "secret1".


(** A name of one code point, three bytes in UTF-8. *)
Definition li : AuthPage.FormData :=
  AuthPage.mkFormData "李" "li@x.com" "secret1".

(** Runs on the sample data: a shipment whose notification answers with an
    error, one whose notification call throws, a status token outside the
    defined set, a product with a negative price. *)
Definition failed_notification_run :=
  AdminPage.handleUpdateOrderStatus
    (with_notification (failed "smtp down") env_ok)
    "7" "shipped" (Some "T123") admin0.

Definition rejected_notification_run :=
  AdminPage.handleUpdateOrderStatus
    (with_notification (Rejected "network down") env_ok)
    "7" "shipped" (Some "T123") admin0.

Definition bogus_run :=
  AdminPage.handleUpdateOrderStatus env_ok "7" "bogus" None admin0.

Definition negative_price_run :=
  AdminPage.handleAddProduct env_ok
    (AdminPage.with_newProduct urea_negative admin0).

(** * The rest of the pages *)

(** Modelled from the spec: the effect of [delete().eq('id', id)] in the
    store, which is not part of the sources.  The row with that id is
    removed; with no such row nothing changes. *)
Definition db_delete (t : string) (id : string) (db : database) : database :=
  alter (delete id) t db.

(** [await supabase.from(t).delete().eq('id', id)] *)
Definition supabase_delete {S} (o : Outcome Response) (t : string)
    (id : string) : M S Response :=
  emit (DbDelete t id);;
  when (resolved_ok o) (store_apply (db_delete t id));;
  await o.

(** ** [src/pages/AdminPage.tsx]: editing and deleting products *)
Module ProductEdit.

(** [interface Product] *)
Record Product := mkProduct {
  id : string;
  name : string;
  description : string;
  price : number;
  image_url : string;
  category : string;
  stock : number;
  unit : string;
  is_active : bool;
}.

(** The page state with its sixth [useState] cell, [editingProduct]. *)
Record PageState := mkPageState {
  page : AdminPage.State;
  editingProduct : option Product;
}.

Definition setEditingProduct (v : option Product) (s : PageState) : PageState :=
  mkPageState (page s) v.

(** A handler of the other five cells, run on the whole page state. *)
Definition on_page {A} (m : M AdminPage.State A) : M PageState A :=
  λ w,
    match m (mkWorld (page (ui w)) (db w) (pending w)) with
    | (r, w', tr) =>
        (r, mkWorld (mkPageState (ui w') (editingProduct (ui w))) (db w')
              (pending w'), tr)
    end.

(** The object literal handed to [update] by [handleUpdateProduct]. *)
Definition productPatch (p : Product) : row :=
  {[ "name" := JString (name p);
     "description" := JString (description p);
     "price" := JNumber (price p);
     "image_url" := JString (image_url p);
     "category" := JString (category p);
     "stock" := JNumber (stock p);
     "unit" := JString (unit p);
     "is_active" := JBool (is_active p) ]}.

(** [answer] is what the store answers to the update. *)
Definition handleUpdateProduct (answer : Outcome Response) : M PageState () :=
  s ← get_ui;
  match editingProduct s with
  | None => mret ()
  | Some editing =>
      r ← supabase_update answer "products" (productPatch editing) (id editing);
      match error r with
      | Some e =>
          toast_error "Failed to update product";;
          console_error [e]
      | None =>
          toast_success "Product updated successfully";;
          set_ui (setEditingProduct None);;
          on_page AdminPage.start_fetchProducts
      end
  end.

(** [answer] is what the store answers to the delete. *)
Definition handleDeleteProduct (answer : Outcome Response) (id : string)
    : M AdminPage.State () :=
  r ← supabase_delete answer "products" id;
  match error r with
  | Some e =>
      toast_error "Failed to delete product";;
      console_error [e]
  | None =>
      toast_success "Product deleted successfully";;
      AdminPage.start_fetchProducts
  end.

End ProductEdit.

(** ** [src/pages/AdminPage.tsx]: the controls of an order card *)
Module OrderCard.

(** [interface Order] *)
Record Order := mkOrder {
  id : string;
  user_id : string;
  status : string;
  total_amount : number;
  shipping_address : ShippingAddress;
  tracking_number : option string;      (* string | null *)
  notes : option string;
  created_at : string;
}.

(** [onChange={(e) => handleUpdateOrderStatus(order.id, e.target.value)}]
    of the status selector. *)
Definition onStatusChange (env : Env) (order : Order) (value : string)
    : M AdminPage.State () :=
  AdminPage.handleUpdateOrderStatus env (id order) value None.

(** [e.target.value !== order.tracking_number] *)
Definition tracking_differs (value : string) (order : Order) : bool :=
  match tracking_number order with
  | Some t => negb (String.eqb value t)
  | None => true
  end.

(** [onBlur] of the tracking input. *)
Definition onTrackingBlur (env : Env) (order : Order) (value : string)
    : M AdminPage.State () :=
  if tracking_differs value order
  then AdminPage.handleUpdateOrderStatus env (id order) (status order) (Some value)
  else mret ().

End OrderCard.

(** ** [src/App.tsx]: the language hooks *)
Module AppHooks.

Definition rtlLanguages : list string := ["ar"; "he"; "fa"; "ur"].

(** What the hooks write: [document.documentElement.dir] and [.lang], and
    [localStorage]. *)
Record Browser := mkBrowser {
  dir : string;
  lang : string;
  localStorage : gmap string string;
}.

(** The effect of [useRTLSupport] for the current [i18n.language]. *)
Definition useRTLSupport (language : string) (b : Browser) : Browser :=
  let isRTL := existsb (String.eqb language) rtlLanguages in
  mkBrowser (if isRTL then "rtl" else "ltr") language
    (<["i18nextLng" := language]> (localStorage b)).

(** The fields of a [StorageEvent] that the handler reads; both may be
    [null]. *)
Record StorageEvent := mkStorageEvent {
  key : option string;
  newValue : option string;
}.

(** [handleStorageChange] of [useLanguagePersistence]: the language handed
    to [i18n.changeLanguage], when it is called. *)
Definition handleStorageChange (language : string) (e : StorageEvent)
    : option string :=
  match key e, newValue e with
  | Some k, Some v =>
      if String.eqb k "i18nextLng" && string_truthy v
         && negb (String.eqb v language)
      then Some v
      else None
  | _, _ => None
  end.

End AppHooks.

(** ** The navigation bar ([Navbar], rendered by [AppContent]) *)
Module Navbar.

Inductive Icon := Leaf | BarChart3 | Store | History | Package | Shield | Phone.

Record NavLink := mkNavLink {
  path : string;
  label : string;
  icon : Icon;
}.

Section Links.

(** The translation function [t] of [useTranslation()]. *)
Variable t : string → string.

Definition navLinks (isAuthenticated isAdmin : bool) : list NavLink :=
  [mkNavLink "/" (t "nav.home") Leaf;
   mkNavLink "/predict" (t "nav.prediction") BarChart3;
   mkNavLink "/analytics" (t "nav.analytics") BarChart3;
   mkNavLink "/shop" (t "nav.shop") Store] ++
  (if isAuthenticated then [mkNavLink "/history" (t "nav.history") History] else []) ++
  (if isAuthenticated then [mkNavLink "/orders" (t "nav.orders") Package] else []) ++
  (if isAdmin then [mkNavLink "/admin" (t "nav.admin") Shield] else []) ++
  [mkNavLink "/contact" (t "nav.contact") Phone].

(** [<Navbar isAuthenticated={!!user} onLogout={signOut} isAdmin={isAdmin} />]
    as [AppContent] renders it. *)
Definition AppContent_navLinks (ctx : App.AuthContext) : list NavLink :=
  navLinks (if App.user ctx is Some _ then true else false) (App.isAdmin ctx).

End Links.

(** [isActive], for the current [location.pathname]. *)
Definition isActive (pathname path : string) : bool := String.eqb pathname path.

End Navbar.

(** ** [src/pages/AuthPage.tsx]: typing into the form *)
Module AuthForm.

(** The [name] attribute of the three inputs of the form. *)
Inductive Field := Name | Email | Password.

Definition field_name (field : Field) : string :=
  match field with
  | Name => "name"
  | Email => "email"
  | Password => "password"
  end.

(** [{ ...prev, [name]: value }] on the form data. *)
Definition setField (field : Field) (value : string) (f : AuthPage.FormData)
    : AuthPage.FormData :=
  match field with
  | Name => AuthPage.mkFormData value (AuthPage.email f) (AuthPage.password f)
  | Email => AuthPage.mkFormData (AuthPage.name f) value (AuthPage.password f)
  | Password => AuthPage.mkFormData (AuthPage.name f) (AuthPage.email f) value
  end.

Definition getField (field : Field) (f : AuthPage.FormData) : string :=
  match field with
  | Name => AuthPage.name f
  | Email => AuthPage.email f
  | Password => AuthPage.password f
  end.

Definition setFormData (g : AuthPage.FormData → AuthPage.FormData)
    (s : AuthPage.State) : AuthPage.State :=
  AuthPage.mkState (AuthPage.isSignup s) (AuthPage.showPassword s)
    (AuthPage.submitting s) (g (AuthPage.formData s)) (AuthPage.errors s).

Definition handleChange (field : Field) (value : string) : M AuthPage.State () :=
  set_ui (setFormData (setField field value));;
  set_ui (λ s, AuthPage.setErrors (<[field_name field := ""]> (AuthPage.errors s)) s).

(** The issues found by the schema of the current mode. *)
Definition issues (email_ok : string → bool) (s : AuthPage.State)
    : list AuthPage.Issue :=
  if AuthPage.isSignup s
  then AuthPage.signupSchema email_ok (AuthPage.formData s)
  else AuthPage.loginSchema email_ok (AuthPage.formData s).

(** [errors.name && <p>{errors.name}</p>]: the message shown under a
    field, if any. *)
Definition shown_error (errors : gmap string string) (field : Field)
    : option string :=
  match errors !! field_name field with
  | Some msg => if string_truthy msg then Some msg else None
  | None => None
  end.

End AuthForm.

(** ** The weather alerts ([WeatherAlerts], rendered by [AppContent]) *)
Module WeatherAlerts.

Inductive AlertType := planting | harvesting | warning | tip.
Inductive Priority := high | medium | low.

Record Alert := mkAlert {
  id : string;
  type : AlertType;
  title : string;
  message : string;
  crop : option string;
  priority : Priority;
}.

Record WeatherData := mkWeatherData {
  temperature : number;
  humidity : number;
  condition : string;
  windSpeed : number;
  rainfall : number;
  feelsLike : option number;
  location : option string;
  description : option string;
  icon : option string;
}.

(** [n > k] on JavaScript numbers, for a finite [k]. *)
Definition number_gt (n : number) (k : Q) : bool :=
  match n with
  | NaN | NegInf => false
  | PosInf => true
  | Num q => negb (Qle_bool q k)
  end.

Section Alerts.

(** How a number is printed inside a template string. *)
Variable show : number → string.

(** [generateAlerts], for [currentMonth = new Date().getMonth()] (0 to 11)
    and the current weather. *)
Definition generateAlerts (currentMonth : nat) (weather : WeatherData)
    : list Alert :=
  (if (5 <=? currentMonth) && (currentMonth <=? 8) then
     [mkAlert "1" planting "Kharif Planting Season"
        "Optimal time to plant rice, maize, and cotton. Monsoon conditions are favorable."
        (Some "Rice, Maize, Cotton") high]
   else if (9 <=? currentMonth) && (currentMonth <=? 11) then
     [mkAlert "2" planting "Rabi Sowing Time"
        "Begin sowing wheat, mustard, and chickpea. Soil moisture is optimal."
        (Some "Wheat, Mustard, Chickpea") high]
   else if (2 <=? currentMonth) && (currentMonth <=? 4) then
     [mkAlert "3" harvesting "Rabi Harvest Season"
        "Time to harvest rabi crops. Check grain moisture before storage."
        (Some "Wheat, Barley") high]
   else []) ++
  (if number_gt (temperature weather) 35 then
     [mkAlert "4" warning "Heat Wave Alert"
        ("Temperature is " +:+ show (temperature weather) +:+
         "°C. Increase irrigation frequency and apply mulching.")
        None high]
   else []) ++
  (if number_gt (humidity weather) 80 then
     [mkAlert "5" warning "High Humidity Warning"
        ("Humidity at " +:+ show (humidity weather) +:+
         "%. Risk of fungal diseases. Apply preventive fungicides.")
        None medium]
   else []) ++
  (if number_gt (rainfall weather) 20 then
     [mkAlert "6" tip "Rainfall Alert"
        (show (rainfall weather) +:+
         "mm rainfall expected. Delay fertilizer application and ensure drainage.")
        None medium]
   else []) ++
  (if number_gt (windSpeed weather) 30 then
     [mkAlert "7" warning "High Wind Warning"
        ("Wind speed is " +:+ show (windSpeed weather) +:+
         " km/h. Secure greenhouse covers and support tall crops.")
        None medium]
   else []) ++
  [mkAlert "8" tip "Soil Testing Reminder"
     "Regular soil testing helps optimize fertilizer use. Test before each major planting season."
     None low].

End Alerts.

Definition is_high (a : Alert) : bool :=
  match priority a with high => true | _ => false end.

(** [alerts.filter(a => a.priority === 'high').length] *)
Definition highPriorityCount (alerts : list Alert) : nat :=
  length (List.filter is_high alerts).

End WeatherAlerts.

(** ** Sample data for the rest of the pages *)

Definition product9 : row :=
  {[ "id" := JString "p-9";
     "name" := JString "Neem oil";
     "description" := JString "";
     "price" := JNumber (Num 320);
     "image_url" := JString "";
     "category" := JString "Pesticides";
     "stock" := JNumber (Num 4);
     "unit" := JString "liter";
     "is_active" := JBool true;
     "created_at" := JString "2024-01-02T08:00:00Z" ]}.

Definition db1 : database :=
  {[ "orders" := {[ "7" := order7; "8" := order8 ]};
     "products" := {[ "p-9" := product9 ]} ]}.

Definition admin1 : World AdminPage.State :=
  mkWorld (ui admin0) db1 [].

Definition neem_edit : ProductEdit.Product :=
  ProductEdit.mkProduct "p-9" "Neem oil 1L" "" (Num 350) "" "Pesticides"
    (Num 3) "liter" true.

Definition edit1 : World ProductEdit.PageState :=
  mkWorld (ProductEdit.mkPageState (ui admin0) (Some neem_edit)) db1 [].

Definition card7 : OrderCard.Order :=
  OrderCard.mkOrder "7" "u-asha" "pending" (Num 1250)
    (mkShippingAddress (Some "Asha") None (Some "Pune") None None None)
    None None "2024-01-05T10:00:00Z".

Definition card8 : OrderCard.Order :=
  OrderCard.mkOrder "8" "u-asha" "pending" (Num 1250)
    (mkShippingAddress (Some "Asha") None (Some "Pune") None None None)
    (Some "T123") None "2024-01-05T10:00:00Z".

(** * Proofs *)

Ltac run_handler :=
  cbv beta iota zeta delta
    [result final events fst snd
     mbind mret M_bind M_ret bind ret throw try_catch try_finally emit await
     get_ui set_ui store_apply defer when resolved_ok
     toast_error toast_success console_error
     supabase_update supabase_insert functions_invoke
     error data
     AdminPage.handleUpdateOrderStatus AdminPage.handleAddProduct
     AdminPage.start_fetchOrders AdminPage.start_fetchProducts
     AdminPage.useEffect_load
     AdminPage.setOrders AdminPage.setProducts AdminPage.setLoading
     AuthPage.handleSubmit AuthPage.signUp AuthPage.signIn AuthPage.navigate
     update_orders invoke_notification insert_products insert_id
     select_orders select_products signUp_result signIn_result
     ui db pending];
  cbn [app].

(** Membership of an event in an explicit trace. *)
Ltac in_trace :=
  repeat first [ apply list_elem_of_here | apply list_elem_of_further ].

(** Case analysis on a membership hypothesis in an explicit trace. *)
Ltac trace_cases H :=
  repeat (apply elem_of_cons in H as [H|H]; [try by simplify_eq|]);
  try by apply elem_of_nil in H.

(** ** Order workflow: [handleUpdateOrderStatus] *)
Section OrderWorkflow.
Import AdminPage.

Implicit Types (env : Env) (orderId status : string)
  (trackingNumber : option string) (w : World State).

Lemma handleUpdateOrderStatus_events env orderId status trackingNumber w :
  events (handleUpdateOrderStatus env orderId status trackingNumber w) =
  DbUpdate "orders" (updateData status trackingNumber) orderId ::
  match update_orders env with
  | Resolved r =>
      match error r with
      | Some e => [ToastError "Failed to update order"; ConsoleError [e]]
      | None => after_commit env orderId status trackingNumber
      end
  | Rejected _ => []
  end.
Proof.
  unfold after_commit.
  destruct env as [sp so ip iid [[d [e|]]|x] [[d' [e'|]]|x'] su si];
    run_handler; reflexivity.
Qed.

Lemma handleUpdateOrderStatus_db env orderId status trackingNumber w :
  db (final (handleUpdateOrderStatus env orderId status trackingNumber w)) =
  if resolved_ok (update_orders env)
  then db_update "orders" (updateData status trackingNumber) orderId (db w)
  else db w.
Proof.
  destruct env as [sp so ip iid [[d [e|]]|x] [[d' [e'|]]|x'] su si];
    run_handler; reflexivity.
Qed.

Lemma handleUpdateOrderStatus_result env orderId status trackingNumber w :
  result (handleUpdateOrderStatus env orderId status trackingNumber w) =
  match update_orders env with
  | Resolved _ => Ok ()
  | Rejected x => Throw x
  end.
Proof.
  destruct env as [sp so ip iid [[d [e|]]|x] [[d' [e'|]]|x'] su si];
    run_handler; reflexivity.
Qed.

Lemma count_after_commit_notify env orderId status trackingNumber :
  count is_notify (after_commit env orderId status trackingNumber) = 1.
Proof.
  unfold after_commit.
  destruct (invoke_notification env) as [[d [e|]]|x]; reflexivity.
Qed.

Lemma count_after_commit_write env orderId status trackingNumber :
  count is_write (after_commit env orderId status trackingNumber) = 0.
Proof.
  unfold after_commit.
  destruct (invoke_notification env) as [[d [e|]]|x]; reflexivity.
Qed.

(** Shipping order 7 with tracking number T123: the order shows the new
    status and tracking number, and the dispatcher receives both. *)
Example ship_order7 :
  let run := handleUpdateOrderStatus env_ok "7" "shipped" (Some "T123") admin0 in
  stored "orders" "7" "status" (db (final run)) = Some (JString "shipped") ∧
  stored "orders" "7" "tracking_number" (db (final run)) = Some (JString "T123") ∧
  stored "orders" "7" "total_amount" (db (final run)) = Some (JNumber (Num 1250)) ∧
  events run !! 3 =
    Some (FnInvoke "send-order-notification"
            {[ "orderId" := JString "7"; "newStatus" := JString "shipped";
               "trackingNumber" := JString "T123" ]}).
Proof. vm_compute. done. Qed.

(** The same call when the store rejects the write: the order is as before
    and the dispatcher is not called. *)
Example ship_order7_write_fails :
  let run := handleUpdateOrderStatus (with_update (failed "row locked") env_ok)
               "7" "shipped" (Some "T123") admin0 in
  db (final run) = db admin0 ∧
  events run =
    [DbUpdate "orders" (updateData "shipped" (Some "T123")) "7";
     ToastError "Failed to update order"; ConsoleError ["row locked"]].
Proof. split; reflexivity. Qed.

(** The part of a refresh that runs later reads the answer of its select
    and touches the page state only: it calls nothing and leaves the store
    as it is. *)
Lemma run_task_quiet env (t : Task) w :
  count is_external_call (events (run_task env t w)) = 0 ∧
  count is_notify (events (run_task env t w)) = 0 ∧
  count is_write (events (run_task env t w)) = 0 ∧
  db (final (run_task env t w)) = db w.
Proof.
  destruct t; cbn [run_task].
  - unfold fetchProducts_resume.
    destruct (select_products env) as [[d [e|]]|x]; run_handler; done.
  - unfold fetchOrders_resume.
    destruct (select_orders env) as [[d [e|]]|x]; run_handler; done.
Qed.

Lemma handleUpdateOrderStatus_pending env orderId status trackingNumber w :
  pending (final (handleUpdateOrderStatus env orderId status trackingNumber w)) =
  pending w ++ (if resolved_ok (update_orders env) then [ResumeFetchOrders] else []).
Proof.
  destruct env as [sp so ip iid [[d [e|]]|x] [[d' [e'|]]|x'] su si];
    run_handler; by rewrite ?app_nil_r.
Qed.

(** C1.  In every transition call the status write is the first action and
    strictly precedes any notification attempt, which is only made once the
    write is committed to the store; a failed write is followed by no
    notification attempt; no call makes more than one attempt, and the
    refresh it leaves pending makes none. *)
Theorem write_precedes_notification env orderId status trackingNumber w :
  let run := handleUpdateOrderStatus env orderId status trackingNumber w in
  let write := DbUpdate "orders" (updateData status trackingNumber) orderId in
  (∀ i ev, events run !! i = Some ev → is_notify ev = true →
     0 < i ∧ events run !! 0 = Some write ∧
     resolved_ok (update_orders env) = true ∧
     db (final run) =
       db_update "orders" (updateData status trackingNumber) orderId (db w)) ∧
  (resolved_ok (update_orders env) = false → count is_notify (events run) = 0) ∧
  count is_notify (events run) ≤ 1 ∧
  (∀ t env' w', t ∈ pending (final run) →
     count is_notify (events (run_task env' t w')) = 0).
Proof.
  intros run write. subst run write.
  rewrite handleUpdateOrderStatus_events, handleUpdateOrderStatus_db.
  assert (∀ t env' w', count is_notify (events (run_task env' t w')) = 0)
    as Hquiet by (intros; apply run_task_quiet).
  destruct (update_orders env) as [[d [e|]]|x]; cbn [resolved_ok error].
  - split_and!; [|done|cbn; lia|by auto].
    intros [|[|[|i]]] ev Hev Hn; by simplify_eq/=.
  - split_and!;
      [|done|cbn [count is_notify]; rewrite count_after_commit_notify; lia
       |by auto].
    intros [|i] ev Hev Hn; [by simplify_eq/=|].
    split_and!; [lia|done..].
  - split_and!; [|done|cbn; lia|by auto].
    intros [|[|i]] ev Hev Hn; by simplify_eq/=.
Qed.

Lemma write_precedes_notification_witness :
  count is_notify
    (events (handleUpdateOrderStatus (with_update (failed "row locked") env_ok)
               "7" "shipped" (Some "T123") admin0)) = 0.
Proof.
  apply (write_precedes_notification (with_update (failed "row locked") env_ok)
           "7" "shipped" (Some "T123") admin0).
  reflexivity.
Defined.

(** C2, as the handler behaves.  When the write is committed and the
    notification fails, the handler still completes normally, the store
    holds the committed change, the call contains exactly one write and
    exactly one notification attempt (nothing is undone, nothing is tried
    again), the success toast of the update stays and the failure is
    logged.  When the dispatcher answers with its error flag the
    administrator is shown the warning
    "Order updated but email notification failed", and no other error toast
    can appear; when the call to the dispatcher throws, the failure is
    caught and logged and no error toast is shown at all.  The refresh left
    pending writes nothing either. *)
Theorem notification_failure_isolated env orderId status trackingNumber w :
  resolved_ok (update_orders env) = true →
  notification_failed (invoke_notification env) = true →
  let run := handleUpdateOrderStatus env orderId status trackingNumber w in
  result run = Ok () ∧
  db (final run) =
    db_update "orders" (updateData status trackingNumber) orderId (db w) ∧
  count is_write (events run) = 1 ∧
  count is_notify (events run) = 1 ∧
  ToastSuccess "Order updated successfully" ∈ events run ∧
  (∀ msg, ToastError msg ∈ events run →
     msg = "Order updated but email notification failed") ∧
  (∃ args, ConsoleError args ∈ events run) ∧
  (∀ response, invoke_notification env = Resolved response →
     ToastError "Order updated but email notification failed" ∈ events run) ∧
  (∀ x, invoke_notification env = Rejected x →
     count is_toast_error (events run) = 0 ∧
     ConsoleError ["Failed to send email notification:"; x] ∈ events run) ∧
  (∀ t env' w', t ∈ pending (final run) →
     count is_write (events (run_task env' t w')) = 0 ∧
     db (final (run_task env' t w')) = db w').
Proof.
  intros Hc Hn run. subst run.
  assert (∀ t env' w',
            count is_write (events (run_task env' t w')) = 0 ∧
            db (final (run_task env' t w')) = db w')
    as Hquiet by (intros; split; apply run_task_quiet).
  rewrite handleUpdateOrderStatus_events, handleUpdateOrderStatus_db,
    handleUpdateOrderStatus_result, Hc.
  destruct (update_orders env) as [[d [e|]]|x]; try discriminate Hc.
  cbn [error count is_write is_notify].
  rewrite count_after_commit_write, count_after_commit_notify.
  unfold after_commit.
  destruct (invoke_notification env) as [[d' [e'|]]|x']; try discriminate Hn;
    cbn [error].
  - split_and!; try done.
    + in_trace.
    + intros msg Hm. trace_cases Hm.
    + eexists. in_trace.
    + intros _ _. in_trace.
  - split_and!; try done.
    + in_trace.
    + intros msg Hm. trace_cases Hm.
    + eexists. in_trace.
    + intros x [= <-]. split; [done|in_trace].
Qed.

Lemma notification_failure_isolated_witness :
  result failed_notification_run = Ok () ∧
  stored "orders" "7" "status" (db (final failed_notification_run)) =
    Some (JString "shipped") ∧
  count is_write (events failed_notification_run) = 1 ∧
  ToastError "Order updated but email notification failed"
    ∈ events failed_notification_run.
Proof.
  pose proof (notification_failure_isolated
                (with_notification (failed "smtp down") env_ok)
                "7" "shipped" (Some "T123") admin0 eq_refl eq_refl)
    as (Hres & Hdb & Hw & _ & _ & _ & _ & Htoast & _).
  split_and!; [exact Hres| |exact Hw|exact (Htoast _ eq_refl)].
  unfold failed_notification_run. rewrite Hdb. vm_compute. reflexivity.
Defined.

(** C2, as claimed, fails: when the call to the dispatcher throws after a
    committed write, the handler logs the failure to the console and shows
    the administrator no warning; the only toast is the success of the
    update. *)
Lemma rejected_notification_not_surfaced :
  resolved_ok (update_orders (with_notification (Rejected "network down") env_ok))
    = true ∧
  notification_failed
    (invoke_notification (with_notification (Rejected "network down") env_ok))
    = true ∧
  result rejected_notification_run = Ok () ∧
  events rejected_notification_run =
    [DbUpdate "orders" (updateData "shipped" (Some "T123")) "7";
     ToastSuccess "Order updated successfully";
     DbSelect "orders";
     FnInvoke "send-order-notification"
       (notificationBody "7" "shipped" (Some "T123"));
     ConsoleError ["Failed to send email notification:"; "network down"]] ∧
  count is_toast_error (events rejected_notification_run) = 0 ∧
  (ToastError "Order updated but email notification failed"
     ∉ events rejected_notification_run).
Proof.
  split_and!; try reflexivity.
  intros Hin. unfold rejected_notification_run in Hin.
  rewrite handleUpdateOrderStatus_events in Hin. cbn in Hin.
  trace_cases Hin.
Qed.

(** *** The update is a partial patch *)

Lemma updateData_status status trackingNumber :
  updateData status trackingNumber !! "status" = Some (JString status).
Proof.
  unfold updateData. destruct trackingNumber as [[|a t]|]; cbn [string_truthy].
  - apply lookup_singleton_eq.
  - rewrite lookup_insert_ne by done. apply lookup_singleton_eq.
  - apply lookup_singleton_eq.
Qed.

Lemma updateData_other status trackingNumber col :
  col ≠ "status" → col ≠ "tracking_number" →
  updateData status trackingNumber !! col = None.
Proof.
  intros Hs Ht. unfold updateData.
  destruct trackingNumber as [[|a t]|]; cbn [string_truthy];
    rewrite ?lookup_insert_ne by done; by apply lookup_singleton_ne.
Qed.

Lemma updateData_no_tracking status trackingNumber :
  tracking_truthy trackingNumber = false →
  updateData status trackingNumber !! "tracking_number" = None.
Proof.
  unfold updateData, tracking_truthy.
  destruct trackingNumber as [[|a t]|]; cbn [string_truthy]; try done.
Qed.

Lemma stored_db_update t t' (patch : row) orderId id col (d : database) :
  patch !! col = None →
  stored t' id col (db_update t patch orderId d) = stored t' id col d.
Proof.
  intros Hcol. unfold stored, db_table, db_update.
  rewrite lookup_alter. case_decide as Ht; [subst t'|done].
  destruct (d !! t) as [tbl|]; cbn; [|done].
  rewrite lookup_alter. case_decide as Hid; [subst id|done].
  destruct (tbl !! orderId) as [r|]; cbn; [|done].
  by rewrite lookup_union_r.
Qed.

Lemma handleUpdateOrderStatus_frame env orderId status trackingNumber w t id col :
  updateData status trackingNumber !! col = None →
  stored t id col
    (db (final (handleUpdateOrderStatus env orderId status trackingNumber w))) =
  stored t id col (db w).
Proof.
  intros Hcol. rewrite handleUpdateOrderStatus_db.
  destruct (resolved_ok _); [|done]. by apply stored_db_update.
Qed.

Lemma transitions_keep_tracking (calls : list Call) w id :
  Forall (λ c, tracking_truthy (call_trackingNumber c) = false) calls →
  stored "orders" id "tracking_number" (db (transitions calls w)) =
  stored "orders" id "tracking_number" (db w).
Proof.
  intros Hcalls. revert w.
  induction Hcalls as [|c calls Hc _ IH]; intros w; [done|].
  cbn [transitions foldl]. unfold transitions in IH. rewrite IH.
  unfold transition.
  by apply handleUpdateOrderStatus_frame, updateData_no_tracking.
Qed.

(** C3.  Once an order carries a non-empty tracking number, any run of later
    transition calls that omit the tracking number or pass the empty string
    leaves the stored tracking number as it is, whatever orders and statuses
    the calls name and whether their writes succeed; the payload of such a
    call has no [tracking_number] key. *)
Theorem tracking_number_monotonic (calls : list Call) w id (t : string) :
  t ≠ "" →
  stored "orders" id "tracking_number" (db w) = Some (JString t) →
  Forall (λ c, call_trackingNumber c = None ∨ call_trackingNumber c = Some "")
    calls →
  stored "orders" id "tracking_number" (db (transitions calls w)) =
    Some (JString t) ∧
  Forall (λ c, "tracking_number" ∉
                 dom (updateData (call_status c) (call_trackingNumber c)))
    calls.
Proof.
  intros _ Hset Hcalls.
  assert (Forall (λ c, tracking_truthy (call_trackingNumber c) = false) calls)
    as Hfalsy.
  { eapply Forall_impl; [exact Hcalls|]. by intros c [-> | ->]. }
  split.
  - by rewrite transitions_keep_tracking.
  - eapply Forall_impl; [exact Hfalsy|]. intros c Hc.
    by apply not_elem_of_dom, updateData_no_tracking.
Qed.

Lemma tracking_number_monotonic_witness :
  stored "orders" "8" "tracking_number"
    (db (transitions
           [mkCall env_ok "8" "delivered" None;
            mkCall (with_update (failed "row locked") env_ok) "8" "shipped" (Some "");
            mkCall env_ok "7" "confirmed" None]
           admin0)) = Some (JString "T123").
Proof.
  apply (tracking_number_monotonic
           [mkCall env_ok "8" "delivered" None;
            mkCall (with_update (failed "row locked") env_ok) "8" "shipped" (Some "");
            mkCall env_ok "7" "confirmed" None]
           admin0 "8" "T123").
  - discriminate.
  - vm_compute. reflexivity.
  - repeat first
      [ apply Forall_nil_2
      | apply Forall_cons_2; [first [by left | by right]|] ].
Defined.

(** C4.  A transition call leaves [total_amount] of every order as it was:
    the payload has no key besides [status] and [tracking_number], every
    other column of every order keeps its value, and no other table is
    touched. *)
Theorem total_amount_unchanged env orderId status trackingNumber w id :
  let run := handleUpdateOrderStatus env orderId status trackingNumber w in
  stored "orders" id "total_amount" (db (final run)) =
    stored "orders" id "total_amount" (db w) ∧
  dom (updateData status trackingNumber) ⊆
    ({[ "status"; "tracking_number" ]} : gset string) ∧
  (∀ col, col ≠ "status" → col ≠ "tracking_number" →
     stored "orders" id col (db (final run)) = stored "orders" id col (db w)) ∧
  (∀ t, t ≠ "orders" → db (final run) !! t = db w !! t).
Proof.
  intros run. subst run. split_and!.
  - by apply handleUpdateOrderStatus_frame, updateData_other.
  - intros col Hcol. apply elem_of_dom in Hcol as [v Hv].
    destruct (decide (col = "status")) as [->|Hs]; [set_solver|].
    destruct (decide (col = "tracking_number")) as [->|Ht]; [set_solver|].
    by rewrite updateData_other in Hv.
  - intros col Hs Ht. by apply handleUpdateOrderStatus_frame, updateData_other.
  - intros t Ht. rewrite handleUpdateOrderStatus_db.
    destruct (resolved_ok _); [|done].
    unfold db_update. by rewrite lookup_alter_ne.
Qed.

(** C5, as the handler behaves.  The handler checks no status token: for any
    string whatever the write is issued first, with that string as the new
    status, and once the write is committed the notification is sent with
    that string too.  The tokens the status selector offers are the seven
    defined ones. *)
Theorem status_token_unchecked env orderId status trackingNumber w :
  let run := handleUpdateOrderStatus env orderId status trackingNumber w in
  events run !! 0 =
    Some (DbUpdate "orders" (updateData status trackingNumber) orderId) ∧
  updateData status trackingNumber !! "status" = Some (JString status) ∧
  (resolved_ok (update_orders env) = true →
     events run !! 3 =
       Some (FnInvoke "send-order-notification"
               (notificationBody orderId status trackingNumber)) ∧
     notificationBody orderId status trackingNumber !! "newStatus" =
       Some (JString status)) ∧
  (∀ s, s ∈ statusOptions ↔
        s = "pending" ∨ s = "confirmed" ∨ s = "processing" ∨ s = "packed" ∨
        s = "shipped" ∨ s = "delivered" ∨ s = "cancelled").
Proof.
  intros run. subst run. rewrite handleUpdateOrderStatus_events.
  split_and!.
  - done.
  - apply updateData_status.
  - intros Hc. destruct (update_orders env) as [[d [e|]]|x]; try discriminate Hc.
    split; [done|].
    unfold notificationBody.
    destruct trackingNumber as [[|a t]|]; cbn [string_truthy];
      rewrite ?lookup_insert_ne by done;
      by simplify_map_eq.
  - intros s. unfold statusOptions. split.
    + intros Hs.
      repeat (apply elem_of_cons in Hs as [->|Hs]; [eauto 10|]).
      by apply elem_of_nil in Hs.
    + intros Hs. repeat (destruct Hs as [->|Hs]; [in_trace|]).
      subst s. in_trace.
Qed.

Lemma status_token_unchecked_witness :
  events (handleUpdateOrderStatus env_ok "7" "shipped" (Some "T123") admin0) !! 3 =
  Some (FnInvoke "send-order-notification"
          {[ "orderId" := JString "7"; "newStatus" := JString "shipped";
             "trackingNumber" := JString "T123" ]}).
Proof.
  apply (status_token_unchecked env_ok "7" "shipped" (Some "T123") admin0).
  reflexivity.
Defined.

(** C5, as claimed, fails: the token "bogus" is outside the defined set, yet
    the call writes it to the order and notifies the customer of it. *)
Lemma invalid_status_not_rejected :
  ("bogus" ∉ statusOptions) ∧
  result bogus_run = Ok () ∧
  count is_write (events bogus_run) = 1 ∧
  count is_notify (events bogus_run) = 1 ∧
  stored "orders" "7" "status" (db (final bogus_run)) = Some (JString "bogus").
Proof.
  split_and!.
  - intros Hin. unfold statusOptions in Hin. trace_cases Hin.
  - reflexivity.
  - reflexivity.
  - reflexivity.
  - vm_compute. reflexivity.
Qed.

End OrderWorkflow.

(** ** Authorization gates: [ProtectedRoute], [AdminRoute] *)
Section Gates.
Import App.

Implicit Types (ctx : AuthContext) (p : Page).

(** C6.  Either gate answers Pending exactly when the session store is
    loading; while it is loading both gates render the spinner, which is not
    a redirect, and so does every gated route. *)
Theorem pending_iff_loading ctx p :
  (decision (ProtectedRoute ctx (Show p)) = Pending ↔ loading ctx = true) ∧
  (decision (AdminRoute ctx (Show p)) = Pending ↔ loading ctx = true) ∧
  (∀ to replace,
     decision (ProtectedRoute ctx (Show p)) = Pending →
     ProtectedRoute ctx (Show p) ≠ Navigate to replace) ∧
  (∀ to replace,
     decision (AdminRoute ctx (Show p)) = Pending →
     AdminRoute ctx (Show p) ≠ Navigate to replace) ∧
  (∀ path, path ∈ gated_paths → loading ctx = true →
     AppContent ctx path = Spinner).
Proof.
  destruct ctx as [[u|] [|] [|]]; cbn.
  all: split_and!; try (split; intros; done); try (intros; congruence).
  all: intros path Hp Hl; try discriminate Hl.
  all: unfold gated_paths in Hp;
    repeat (apply elem_of_cons in Hp as [->|Hp]; [done|]);
    by apply elem_of_nil in Hp.
Qed.

Lemma ProtectedRoute_deny ctx p fallback :
  decision (ProtectedRoute ctx (Show p)) = Deny fallback ↔
  loading ctx = false ∧ user ctx = None ∧ fallback = "/auth".
Proof.
  destruct ctx as [[u|] a [|]]; cbn;
    (split; [intros H|intros (Hl & Hu & Hf)]); by simplify_eq.
Qed.

Lemma AdminRoute_deny ctx p fallback :
  decision (AdminRoute ctx (Show p)) = Deny fallback ↔
  loading ctx = false ∧ (user ctx = None ∨ isAdmin ctx = false) ∧
  fallback = "/".
Proof.
  destruct ctx as [[u|] [|] [|]]; cbn;
    (split; [intros H|intros (Hl & [Hu|Ha] & Hf)]); simplify_eq; auto.
Qed.

Lemma useEffect_load_not_admin (w : World AdminPage.State) :
  AdminPage.useEffect_load false w = (Ok (), w, []).
Proof. reflexivity. Qed.

Lemma visit_admin_not_admin ctx (w : World AdminPage.State) :
  isAdmin ctx = false → visit_admin ctx w = (Ok (), w, []).
Proof. destruct ctx as [[u|] [|] [|]]; by cbn. Qed.

(** C7.  The Authenticated gate denies exactly when no account is bound, and
    then redirects to the login route; the Administrator gate denies exactly
    when there is no account or the account is not an administrator, and then
    redirects to the home route.  For a non-administrator neither visiting
    [/admin] nor the admin page's own mount effect issues a record-store
    call. *)
Theorem deny_redirects_to_fallback ctx p (w : World AdminPage.State) :
  (∀ fallback,
     decision (ProtectedRoute ctx (Show p)) = Deny fallback ↔
     loading ctx = false ∧ user ctx = None ∧ fallback = "/auth") ∧
  (∀ fallback,
     decision (AdminRoute ctx (Show p)) = Deny fallback ↔
     loading ctx = false ∧ (user ctx = None ∨ isAdmin ctx = false) ∧
     fallback = "/") ∧
  (∀ fallback, decision (ProtectedRoute ctx (Show p)) = Deny fallback →
     ProtectedRoute ctx (Show p) = Navigate "/auth" true ∧
     AppContent ctx "/auth" = Show AuthPage) ∧
  (∀ fallback, decision (AdminRoute ctx (Show p)) = Deny fallback →
     AdminRoute ctx (Show p) = Navigate "/" true ∧
     AppContent ctx "/" = Show Index) ∧
  (isAdmin ctx = false →
     events (visit_admin ctx w) = [] ∧ final (visit_admin ctx w) = w ∧
     events (AdminPage.useEffect_load (isAdmin ctx) w) = [] ∧
     final (AdminPage.useEffect_load (isAdmin ctx) w) = w).
Proof.
  split; [|split; [|split; [|split]]].
  - intros fallback. apply ProtectedRoute_deny.
  - intros fallback. apply AdminRoute_deny.
  - intros fallback (Hl & Hu & _)%ProtectedRoute_deny.
    unfold ProtectedRoute, AppContent. by rewrite Hl, Hu.
  - intros fallback (Hl & Hd & _)%AdminRoute_deny.
    unfold AdminRoute. rewrite Hl. split; [|done].
    destruct Hd as [-> | ->]; [done|]. by destruct (user ctx).
  - intros Ha. rewrite visit_admin_not_admin by done.
    rewrite Ha, useEffect_load_not_admin. done.
Qed.

Lemma deny_redirects_to_fallback_witness :
  events (visit_admin (mkAuthContext (Some "u-asha") false false) admin0) = [] ∧
  AdminRoute (mkAuthContext (Some "u-asha") false false) (Show AdminPage) =
    Navigate "/" true.
Proof.
  pose proof (deny_redirects_to_fallback
                (mkAuthContext (Some "u-asha") false false) AdminPage admin0)
    as (_ & Hdeny & _ & Hnav & Hfetch).
  split.
  - apply Hfetch. reflexivity.
  - apply (Hnav "/"), Hdeny. split_and!; [reflexivity|by right|reflexivity].
Defined.

End Gates.

(** ** Catalog admin: [handleAddProduct] *)
Section Catalog.
Import AdminPage.

Implicit Types (env : Env) (w : World State).

Lemma string_truthy_false (s : string) : string_truthy s = false ↔ s = "".
Proof. by destruct s. Qed.

Lemma number_truthy_false (n : number) :
  number_truthy n = false ↔ n = NaN ∨ ∃ q, n = Num q ∧ (q == 0)%Q.
Proof.
  destruct n as [| | |q]; cbn.
  - split; [by left|done].
  - split; [done|]. intros [?|(q & ? & _)]; discriminate.
  - split; [done|]. intros [?|(q & ? & _)]; discriminate.
  - rewrite negb_false_iff, Qeq_bool_iff. split.
    + intros Hq. right. by exists q.
    + intros [?|(q' & Heq & Hq)]; [discriminate|]. by simplify_eq.
Qed.

Lemma number_positive_truthy (n : number) :
  number_positive n = true → number_truthy n = true.
Proof.
  destruct n as [| | |q]; cbn; try done.
  rewrite !negb_true_iff. intros Hle.
  destruct (Qeq_bool q 0) eqn:Heq; [|done].
  apply Qeq_bool_iff in Heq.
  assert (Qle_bool q 0 = true) as Hle'; [|congruence].
  apply Qle_bool_iff. rewrite Heq. apply Qle_refl.
Qed.

Lemma handleAddProduct_rejected env w :
  required_missing (newProduct (ui w)) = true →
  handleAddProduct env w =
    (Ok (), w, [ToastError "Please fill in required fields"]).
Proof.
  unfold required_missing. intros Hm.
  destruct w as [s d pend]. cbn [ui] in Hm.
  run_handler. by rewrite Hm.
Qed.

Lemma handleAddProduct_accepted env w :
  required_missing (newProduct (ui w)) = false →
  events (handleAddProduct env w) !! 0 =
    Some (DbInsert "products" [newProduct_row (newProduct (ui w))]).
Proof.
  unfold required_missing. intros Hm.
  destruct w as [s d pend]. cbn [ui] in Hm |- *.
  destruct env as [sp so [[d' [e'|]]|x'] iid uo inv su si];
    run_handler; rewrite Hm; reflexivity.
Qed.

(** C8, as the handler behaves.  A product whose name is empty or whose
    price is zero or not a number is turned away with the toast
    "Please fill in required fields" and nothing else happens: no call, no
    change of state.  With a non-empty name and any other price, negative
    ones included, the insert is the first action; a positive price is
    always such a price. *)
Theorem required_fields_checked env w :
  let np := newProduct (ui w) in
  let run := handleAddProduct env w in
  (name np = "" ∨ price np = NaN ∨ (∃ q, price np = Num q ∧ (q == 0)%Q) →
     run = (Ok (), w, [ToastError "Please fill in required fields"])) ∧
  (name np ≠ "" → number_truthy (price np) = true →
     events run !! 0 = Some (DbInsert "products" [newProduct_row np])) ∧
  (name np ≠ "" → number_positive (price np) = true →
     events run !! 0 = Some (DbInsert "products" [newProduct_row np])).
Proof.
  intros np run. subst np run. split_and!.
  - intros Hbad. apply handleAddProduct_rejected. unfold required_missing.
    apply orb_true_iff. rewrite !negb_true_iff.
    destruct Hbad as [Hn|Hp].
    + left. by apply string_truthy_false.
    + right. by apply number_truthy_false.
  - intros Hn Hp. apply handleAddProduct_accepted. unfold required_missing.
    rewrite Hp. rewrite orb_false_r, negb_false_iff.
    destruct (string_truthy _) eqn:Hs; [done|].
    by apply string_truthy_false in Hs.
  - intros Hn Hp. apply handleAddProduct_accepted. unfold required_missing.
    rewrite (number_positive_truthy _ Hp). rewrite orb_false_r, negb_false_iff.
    destruct (string_truthy _) eqn:Hs; [done|].
    by apply string_truthy_false in Hs.
Qed.

Lemma required_fields_checked_witness :
  handleAddProduct env_ok admin0 =
    (Ok (), admin0, [ToastError "Please fill in required fields"]) ∧
  events (handleAddProduct env_ok (with_newProduct urea admin0)) !! 0 =
    Some (DbInsert "products" [newProduct_row urea]).
Proof.
  split.
  - apply (required_fields_checked env_ok admin0). by left.
  - apply (required_fields_checked env_ok (with_newProduct urea admin0)).
    + discriminate.
    + reflexivity.
Defined.

(** C8, as claimed, fails: a product with a negative price is not positive,
    yet it passes the guard, is inserted into the store and is reported as
    added. *)
Lemma negative_price_not_rejected :
  number_positive (price urea_negative) = false ∧
  result negative_price_run = Ok () ∧
  events negative_price_run =
    [DbInsert "products" [newProduct_row urea_negative];
     ToastSuccess "Product added successfully";
     DbSelect "products"] ∧
  stored "products" "p-1" "price" (db (final negative_price_run)) =
    Some (JNumber (Num (-5))).
Proof.
  split_and!.
  - reflexivity.
  - reflexivity.
  - reflexivity.
  - vm_compute. reflexivity.
Qed.

End Catalog.

(** ** Sign-up and sign-in: [handleSubmit] *)
Section Auth.
Import AuthPage.

Variable email_ok : string → bool.

Implicit Types (env : Env) (w : World State) (f : FormData).




(** One code unit for a code point of three bytes, two for one of four
    bytes, as [s.length] counts. *)
Example js_length_samples :
  js_length "Asha" = 4 ∧ js_length "李" = 1 ∧ js_length "°C" = 2 ∧
  js_length "😀" = 2 ∧ String.length "李" = 3.
Proof. by vm_compute. Qed.

Lemma min_length_nil field n msg value :
  min_length field n msg value = [] ↔ n ≤ js_length value.
Proof.
  unfold min_length. destruct (Nat.ltb_spec (js_length value) n).
  - split; [done|lia].
  - done.
Qed.

Lemma email_check_nil field msg value :
  email_check email_ok field msg value = [] ↔ email_ok value = true.
Proof. unfold email_check. by destruct (email_ok value). Qed.



Lemma signupSchema_nil f :
  signupSchema email_ok f = [] ↔
  2 ≤ js_length (name f) ∧ email_ok (email f) = true ∧
  6 ≤ js_length (password f).
Proof.
  unfold signupSchema.
  rewrite <- (min_length_nil "name" 2 "Name must be at least 2 characters"),
    <- (email_check_nil "email" "Invalid email address"),
    <- (min_length_nil "password" 6 "Password must be at least 6 characters").
  split.
  - by intros [? [? ?]%app_eq_nil]%app_eq_nil.
  - by intros (-> & -> & ->).
Qed.

(** The outcome of a submission, spelled out. *)
Lemma handleSubmit_events env w :
  events (handleSubmit email_ok env w) =
  let f := formData (ui w) in
  if isSignup (ui w) then
    match signupSchema email_ok f with
    | _ :: _ => []
    | [] =>
        AuthSignUp (email f) (password f) (name f) ::
        match signUp_result env with
        | Resolved r =>
            match error r with
            | Some message => [ToastError message]
            | None =>
                [ToastSuccess "Account created successfully!";
                 NavigateTo "/" true]
            end
        | Rejected _ => [ToastError "Something went wrong. Please try again."]
        end
    end
  else
    match loginSchema email_ok f with
    | _ :: _ => []
    | [] =>
        AuthSignIn (email f) (password f) ::
        match signIn_result env with
        | Resolved r =>
            match error r with
            | Some _ => [ToastError "Invalid email or password"]
            | None => [ToastSuccess "Welcome back!"; NavigateTo "/" true]
            end
        | Rejected _ => [ToastError "Something went wrong. Please try again."]
        end
    end.
Proof.
  destruct w as [[[|] sp sub f errs] d pend]; cbn [ui isSignup formData].
  - destruct env as [sp' so ip iid uo inv [[d' [e'|]]|x'] si];
      run_handler; cbn [isSignup formData];
      destruct (signupSchema email_ok f); reflexivity.
  - destruct env as [sp' so ip iid uo inv su [[d' [e'|]]|x']];
      run_handler; cbn [isSignup formData];
      destruct (loginSchema email_ok f); reflexivity.
Qed.


Lemma handleSubmit_result env w :
  result (handleSubmit email_ok env w) = Ok ().
Proof.
  destruct w as [[[|] sp sub f errs] d pend].
  - destruct env as [sp' so ip iid uo inv [[d' [e'|]]|x'] si];
      run_handler; cbn [isSignup formData];
      destruct (signupSchema email_ok f); reflexivity.
  - destruct env as [sp' so ip iid uo inv su [[d' [e'|]]|x']];
      run_handler; cbn [isSignup formData];
      destruct (loginSchema email_ok f); reflexivity.
Qed.

(** C9.  A submission issues exactly one navigation, to the home route and
    as its last action, when it succeeds, and none when it fails (schema
    issue, error answer or rejected call); no other navigation is ever
    issued by the handler; and the [/auth] route redirects to home while an
    account is bound. *)
Theorem single_redirect_on_success env w (ctx : App.AuthContext) :
  let run := handleSubmit email_ok env w in
  count is_navigate (events run) =
    (if submission_succeeds email_ok env (ui w) then 1 else 0) ∧
  (∀ path replace, NavigateTo path replace ∈ events run →
     path = "/" ∧ replace = true) ∧
  (submission_succeeds email_ok env (ui w) = true →
     last (events run) = Some (NavigateTo "/" true) ∧ result run = Ok ()) ∧
  (is_Some (App.user ctx) →
     App.AppContent ctx "/auth" = App.Navigate "/" true).
Proof.
  intros run. subst run.
  rewrite handleSubmit_events, handleSubmit_result. unfold submission_succeeds.
  split_and!.
  - destruct (isSignup (ui w)); cbn zeta.
    + destruct (signupSchema _ _); [|done].
      by destruct (signUp_result env) as [[d [e|]]|x].
    + destruct (loginSchema _ _); [|done].
      by destruct (signIn_result env) as [[d [e|]]|x].
  - intros path replace Hin. destruct (isSignup (ui w)); cbn zeta in Hin.
    + destruct (signupSchema _ _); [|by apply elem_of_nil in Hin].
      destruct (signUp_result env) as [[d [e|]]|x]; cbn [error] in Hin;
        trace_cases Hin.
    + destruct (loginSchema _ _); [|by apply elem_of_nil in Hin].
      destruct (signIn_result env) as [[d [e|]]|x]; cbn [error] in Hin;
        trace_cases Hin.
  - destruct (isSignup (ui w)); cbn zeta.
    + destruct (signupSchema _ _); [|done].
      by destruct (signUp_result env) as [[d [e|]]|x].
    + destruct (loginSchema _ _); [|done].
      by destruct (signIn_result env) as [[d [e|]]|x].
  - intros [u Hu]. unfold App.AppContent. by rewrite Hu.
Qed.


End Auth.

Lemma single_redirect_on_success_witness :
  last (events (AuthPage.handleSubmit has_at env_ok (auth0 true asha))) =
    Some (NavigateTo "/" true) ∧
  App.AppContent (App.mkAuthContext (Some "u-asha") false false) "/auth" =
    App.Navigate "/" true.
Proof.
  pose proof (single_redirect_on_success has_at env_ok (auth0 true asha)
                (App.mkAuthContext (Some "u-asha") false false))
    as (_ & _ & Hlast & Hroute).
  split.
  - apply Hlast. reflexivity.
  - apply Hroute. by eexists.
Defined.


(** * The rest of the pages: proofs *)

Ltac run_more :=
  cbv beta iota zeta delta
    [result final events fst snd
     mbind mret M_bind M_ret bind ret throw try_catch try_finally emit await
     get_ui set_ui store_apply defer when resolved_ok
     toast_error toast_success console_error
     supabase_update supabase_insert supabase_delete functions_invoke
     error data
     AdminPage.handleUpdateOrderStatus AdminPage.handleAddProduct
     AdminPage.start_fetchOrders AdminPage.start_fetchProducts
     AdminPage.useEffect_load AdminPage.run_task
     AdminPage.fetchOrders AdminPage.fetchProducts
     AdminPage.fetchOrders_resume AdminPage.fetchProducts_resume
     ProductEdit.handleUpdateProduct ProductEdit.handleDeleteProduct
     ProductEdit.on_page
     OrderCard.onStatusChange OrderCard.onTrackingBlur
     AuthPage.handleSubmit AuthPage.signUp AuthPage.signIn AuthPage.navigate
     update_orders invoke_notification insert_products insert_id
     select_orders select_products signUp_result signIn_result
     ui db pending];
  cbn [app].

(** ** Loading the lists: [fetchProducts], [fetchOrders], the mount effect *)
Section Loading.
Import AdminPage.

Implicit Types (env : Env) (w : World State) (order : row).

Lemma mapOrder_address_truthy order :
  truthy (mapOrder order !! "shipping_address") = true.
Proof.
  unfold mapOrder. rewrite lookup_insert_eq.
  destruct (truthy (order !! "shipping_address")) eqn:Ht; [|done].
  by destruct (order !! "shipping_address").
Qed.

Lemma mapOrder_other order col :
  col ≠ "shipping_address" → mapOrder order !! col = order !! col.
Proof. intros Hcol. unfold mapOrder. by rewrite lookup_insert_ne. Qed.

Lemma mapOrder_keeps order :
  truthy (order !! "shipping_address") = true → mapOrder order = order.
Proof.
  intros Ht. unfold mapOrder. rewrite Ht.
  destruct (order !! "shipping_address") as [v|] eqn:Hv; [|done].
  cbn [default]. by apply fin_maps.insert_id.
Qed.

(** X1.  When the select on [orders] answers without error, the page lists
    exactly the returned rows, in the returned order ([null] data is the
    empty list).  Each listed row has a present shipping address: a row that
    came with one is listed unchanged, a row without gets the empty address
    and keeps every other column.  Nothing else changes: no write is made,
    the product list and the loading flag stay. *)
Theorem fetchOrders_lists_orders env w (r : Response) :
  select_orders env = Resolved r →
  error r = None →
  let run := fetchOrders env w in
  result run = Ok () ∧
  events run = [DbSelect "orders"] ∧
  orders (ui (final run)) = mapOrder <$> default [] (data r) ∧
  Forall (λ o : row, truthy (o !! "shipping_address") = true)
    (orders (ui (final run))) ∧
  (∀ i order, default [] (data r) !! i = Some order →
     ∃ listed, orders (ui (final run)) !! i = Some listed ∧
       (∀ col, col ≠ "shipping_address" → listed !! col = order !! col) ∧
       (truthy (order !! "shipping_address") = true → listed = order)) ∧
  products (ui (final run)) = products (ui w) ∧
  loading (ui (final run)) = loading (ui w) ∧
  db (final run) = db w.
Proof.
  intros Hsel Herr run. subst run.
  destruct env as [sp so ip iid uo inv su si]. cbn in Hsel. subst so.
  destruct r as [d e]. cbn in Herr. subst e.
  run_more. cbn [setOrders orders products loading].
  split_and!; try done.
  - apply Forall_fmap, Forall_forall. intros o _. apply mapOrder_address_truthy.
  - intros i order Hi. exists (mapOrder order). split_and!.
    + by rewrite list_lookup_fmap, Hi.
    + intros col Hcol. by apply mapOrder_other.
    + apply mapOrder_keeps.
Qed.

Lemma fetchOrders_lists_orders_witness :
  orders (ui (final (fetchOrders
                       (mkEnv ok (Resolved (mkResponse (Some [order7; ∅]) None))
                          ok "p-1" ok ok ok ok) admin0))) =
    [mapOrder order7; mapOrder ∅].
Proof.
  apply (fetchOrders_lists_orders
           (mkEnv ok (Resolved (mkResponse (Some [order7; ∅]) None))
              ok "p-1" ok ok ok ok) admin0
           (mkResponse (Some [order7; ∅]) None) eq_refl eq_refl).
Defined.

(** X2.  [fetchProducts] issues one select and never writes.  Whenever the
    select resolves, with or without error, the loading flag ends up false;
    an error answer leaves the product list as it was and shows
    "Failed to fetch products", a good answer replaces the list by the data
    ([null] data is the empty list).  When the promise is rejected the
    function throws and the page state, loading flag included, stays as it
    was. *)
Theorem fetchProducts_ends_loading env w :
  let run := fetchProducts env w in
  events run !! 0 = Some (DbSelect "products") ∧
  count is_write (events run) = 0 ∧
  db (final run) = db w ∧
  orders (ui (final run)) = orders (ui w) ∧
  (∀ r, select_products env = Resolved r →
     result run = Ok () ∧ loading (ui (final run)) = false) ∧
  (∀ r e, select_products env = Resolved r → error r = Some e →
     products (ui (final run)) = products (ui w) ∧
     events run = [DbSelect "products"; ToastError "Failed to fetch products";
                   ConsoleError [e]]) ∧
  (∀ r, select_products env = Resolved r → error r = None →
     products (ui (final run)) = default [] (data r) ∧
     events run = [DbSelect "products"]) ∧
  (∀ x, select_products env = Rejected x →
     result run = Throw x ∧ ui (final run) = ui w).
Proof.
  intros run. subst run.
  destruct env as [[[d [e|]]|x] so ip iid uo inv su si]; run_more;
    cbn [setProducts setLoading orders products loading];
    split_and!; try done; intros; by simplify_eq/=.
Qed.

Lemma fetchProducts_ends_loading_witness :
  loading (ui (final (fetchProducts
                        (mkEnv (failed "timeout") ok ok "p-1" ok ok ok ok)
                        admin0))) = false.
Proof.
  pose proof (fetchProducts_ends_loading
                (mkEnv (failed "timeout") ok ok "p-1" ok ok ok ok) admin0)
    as (_ & _ & _ & _ & Hresolved & _).
  apply (Hresolved (mkResponse None (Some "timeout"))). reflexivity.
Defined.

End Loading.

Section Mounting.
Import AdminPage.

Implicit Types (env : Env) (w : World State).

(** X3.  Mounting the page as an administrator issues exactly two selects,
    products first, and leaves their two continuations pending without
    touching the page or the store.  The continuations can complete in
    either order: the world they leave is the same.  When both selects
    answer without error the page then shows the returned products, the
    mapped orders and no loading flag. *)
Theorem mount_refreshes_commute env w :
  useEffect_load true w =
    (Ok (),
     mkWorld (ui w) (db w)
       (pending w ++ [ResumeFetchProducts; ResumeFetchOrders]),
     [DbSelect "products"; DbSelect "orders"]) ∧
  final (run_task env ResumeFetchOrders
           (final (run_task env ResumeFetchProducts w))) =
  final (run_task env ResumeFetchProducts
           (final (run_task env ResumeFetchOrders w))) ∧
  (∀ rp ro,
     select_products env = Resolved rp → error rp = None →
     select_orders env = Resolved ro → error ro = None →
     ui (final (run_task env ResumeFetchOrders
                  (final (run_task env ResumeFetchProducts w)))) =
     mkState (default [] (data rp)) (mapOrder <$> default [] (data ro)) false
       (showAddProduct (ui w)) (newProduct (ui w))).
Proof.
  split_and!.
  - run_more. by rewrite <- app_assoc.
  - destruct env as [[[dp [ep|]]|xp] [[d [e|]]|x] ip iid uo inv su si];
      run_more; reflexivity.
  - intros rp ro Hp Hep Ho Heo.
    destruct env as [sp so ip iid uo inv su si]. cbn in Hp, Ho. subst sp so.
    destruct rp as [dp ep], ro as [d e]. cbn in Hep, Heo. subst ep e.
    run_more. reflexivity.
Qed.

Lemma mount_refreshes_commute_witness :
  ui (final (run_task env_ok ResumeFetchOrders
               (final (run_task env_ok ResumeFetchProducts admin0)))) =
  mkState [] [] false false initialProduct.
Proof.
  pose proof (mount_refreshes_commute env_ok admin0) as (_ & _ & Hboth).
  exact (Hboth (mkResponse None None) (mkResponse None None)
           eq_refl eq_refl eq_refl eq_refl).
Defined.

End Mounting.

(** ** Creating, editing and deleting products *)
Section Products.
Import AdminPage.

Implicit Types (env : Env) (w : World State) (d : database).

Lemma stored_db_insert t id (r : row) col d :
  stored t id col (db_insert t id r d) = <["id" := JString id]> r !! col.
Proof.
  unfold stored, db_insert, db_table.
  rewrite lookup_insert_eq. cbn. by rewrite lookup_insert_eq.
Qed.

(** X4.  A product that passes the guard of [handleAddProduct] is handed to
    the store as it stands in the form.  When the store accepts it, the row
    can be read back under the id the store chose, the form is closed and
    reset to its initial values, and one refresh of the product list is
    started.  When the store answers with an error the form stays open with
    its contents, the store is unchanged and no refresh is started; when the
    promise is rejected the handler throws and changes nothing. *)
Theorem handleAddProduct_outcomes env w :
  required_missing (newProduct (ui w)) = false →
  let np := newProduct (ui w) in
  let run := handleAddProduct env w in
  events run !! 0 = Some (DbInsert "products" [newProduct_row np]) ∧
  (resolved_ok (insert_products env) = true →
     result run = Ok () ∧
     (∀ col, stored "products" (insert_id env) col (db (final run)) =
             <["id" := JString (insert_id env)]> (newProduct_row np) !! col) ∧
     stored "products" (insert_id env) "name" (db (final run)) =
       Some (JString (name np)) ∧
     ui (final run) = setNewProduct initialProduct (setShowAddProduct false (ui w)) ∧
     pending (final run) = pending w ++ [ResumeFetchProducts] ∧
     events run = [DbInsert "products" [newProduct_row np];
                   ToastSuccess "Product added successfully";
                   DbSelect "products"]) ∧
  (∀ r e, insert_products env = Resolved r → error r = Some e →
     result run = Ok () ∧ final run = w ∧
     events run = [DbInsert "products" [newProduct_row np];
                   ToastError "Failed to add product"; ConsoleError [e]]) ∧
  (∀ x, insert_products env = Rejected x →
     result run = Throw x ∧ final run = w ∧
     events run = [DbInsert "products" [newProduct_row np]]).
Proof.
  intros Hm np run. subst np run. unfold required_missing in Hm.
  destruct w as [s d pend]. cbn [ui] in Hm |- *.
  destruct env as [sp so [[d' [e'|]]|x'] iid uo inv su si];
    run_more; rewrite Hm; cbn [app].
  - split_and!; try done; intros; by simplify_eq/=.
  - split_and!; try done; [|intros; by simplify_eq/=..].
    intros _. split_and!; try done.
    + intros col. apply stored_db_insert.
    + rewrite stored_db_insert. rewrite lookup_insert_ne by done.
      unfold newProduct_row. by simplify_map_eq.
  - split_and!; try done; intros; by simplify_eq/=.
Qed.

Lemma handleAddProduct_outcomes_witness :
  stored "products" "p-1" "name"
    (db (final (handleAddProduct env_ok (with_newProduct urea admin0)))) =
    Some (JString "Urea").
Proof.
  pose proof (handleAddProduct_outcomes env_ok (with_newProduct urea admin0)
                eq_refl) as (_ & Hok & _).
  apply Hok. reflexivity.
Defined.

Lemma stored_db_update_row t (patch old : row) id col d :
  db_table t d !! id = Some old →
  stored t id col (db_update t patch id d) = (patch ∪ old) !! col.
Proof.
  unfold stored, db_table, db_update. intros Hold.
  rewrite lookup_alter_eq.
  destruct (d !! t) as [tbl|]; cbn in *; [|by rewrite lookup_empty in Hold].
  by rewrite lookup_alter_eq, Hold.
Qed.

Lemma db_table_db_update_ne t t' (patch : row) id id' d :
  id' ≠ id →
  db_table t' (db_update t patch id d) !! id' = db_table t' d !! id'.
Proof.
  intros Hne. unfold db_table, db_update.
  rewrite lookup_alter. case_decide as Ht; [subst t'|done].
  destruct (d !! t) as [tbl|]; cbn; [|done].
  by rewrite lookup_alter_ne.
Qed.

Lemma productPatch_keys (p : ProductEdit.Product) :
  dom (ProductEdit.productPatch p) =
  ({[ "name"; "description"; "price"; "image_url"; "category"; "stock";
      "unit"; "is_active" ]} : gset string).
Proof.
  unfold ProductEdit.productPatch.
  rewrite !dom_insert_L, dom_singleton_L. set_solver.
Qed.

(** X5.  [handleUpdateProduct] does nothing at all when no product is being
    edited.  Otherwise it sends the edited values as they are, with no check
    of name or price, in one update keyed by the product's id; the payload
    has the eight editable columns and never the id.  On success the editing
    mode is left, the rest of the page is untouched and one refresh is
    started; on an error answer the editing mode and the store stay as they
    were; a rejected promise makes the handler throw with nothing changed. *)
Theorem handleUpdateProduct_outcomes (answer : Outcome Response)
    (w : World ProductEdit.PageState) :
  let run := ProductEdit.handleUpdateProduct answer w in
  (ProductEdit.editingProduct (ui w) = None → run = (Ok (), w, [])) ∧
  (∀ p, ProductEdit.editingProduct (ui w) = Some p →
     events run !! 0 =
       Some (DbUpdate "products" (ProductEdit.productPatch p) (ProductEdit.id p)) ∧
     ("id" ∉ dom (ProductEdit.productPatch p)) ∧
     size (dom (ProductEdit.productPatch p)) = 8 ∧
     (resolved_ok answer = true →
        result run = Ok () ∧
        ProductEdit.editingProduct (ui (final run)) = None ∧
        ProductEdit.page (ui (final run)) = ProductEdit.page (ui w) ∧
        pending (final run) = pending w ++ [ResumeFetchProducts] ∧
        db (final run) =
          db_update "products" (ProductEdit.productPatch p) (ProductEdit.id p)
            (db w)) ∧
     (∀ r e, answer = Resolved r → error r = Some e →
        result run = Ok () ∧ final run = w ∧
        events run =
          [DbUpdate "products" (ProductEdit.productPatch p) (ProductEdit.id p);
           ToastError "Failed to update product"; ConsoleError [e]]) ∧
     (∀ x, answer = Rejected x → result run = Throw x ∧ final run = w)).
Proof.
  intros run. subst run. destruct w as [[pg [p|]] d pend]; cbn [ui].
  - split; [done|]. intros p' [= <-].
    split_and!.
    + destruct answer as [[d' [e'|]]|x']; run_more; done.
    + apply not_elem_of_dom. unfold ProductEdit.productPatch.
      by simplify_map_eq.
    + rewrite productPatch_keys. done.
    + destruct answer as [[d' [e'|]]|x']; run_more; done.
    + intros r e -> He. destruct r as [d' e']. cbn in He. subst e'.
      run_more. done.
    + intros x ->. run_more. done.
  - split; [|done]. intros _. run_more. done.
Qed.

Lemma handleUpdateProduct_outcomes_witness :
  ProductEdit.editingProduct
    (ui (final (ProductEdit.handleUpdateProduct ok edit1))) = None.
Proof.
  pose proof (handleUpdateProduct_outcomes ok edit1) as (_ & Hedit).
  destruct (Hedit neem_edit eq_refl) as (_ & _ & _ & Hok & _).
  apply Hok. reflexivity.
Defined.

(** X6.  After a successful edit of a product that is in the store, each of
    the eight edited columns reads back the edited value, every other column
    of the row (its id, its creation time) keeps its value, and no other
    product and no other table is changed. *)
Theorem handleUpdateProduct_stored (answer : Outcome Response)
    (w : World ProductEdit.PageState) (p : ProductEdit.Product) (old : row) :
  ProductEdit.editingProduct (ui w) = Some p →
  resolved_ok answer = true →
  db_table "products" (db w) !! ProductEdit.id p = Some old →
  let after := db (final (ProductEdit.handleUpdateProduct answer w)) in
  (∀ col v, ProductEdit.productPatch p !! col = Some v →
     stored "products" (ProductEdit.id p) col after = Some v) ∧
  stored "products" (ProductEdit.id p) "name" after =
    Some (JString (ProductEdit.name p)) ∧
  stored "products" (ProductEdit.id p) "price" after =
    Some (JNumber (ProductEdit.price p)) ∧
  (∀ col, ProductEdit.productPatch p !! col = None →
     stored "products" (ProductEdit.id p) col after = old !! col) ∧
  (∀ id', id' ≠ ProductEdit.id p →
     db_table "products" after !! id' = db_table "products" (db w) !! id') ∧
  (∀ t, t ≠ "products" → after !! t = db w !! t).
Proof.
  intros Hp Hok Hold after. subst after.
  destruct (handleUpdateProduct_outcomes answer w) as (_ & Hedit).
  destruct (Hedit p Hp) as (_ & _ & _ & Hdone & _).
  destruct (Hdone Hok) as (_ & _ & _ & _ & ->).
  assert (∀ col v, ProductEdit.productPatch p !! col = Some v →
            stored "products" (ProductEdit.id p) col
              (db_update "products" (ProductEdit.productPatch p)
                 (ProductEdit.id p) (db w)) = Some v) as Hcols.
  { intros col v Hv. rewrite (stored_db_update_row _ _ old) by done.
    by apply lookup_union_Some_l. }
  split_and!.
  - exact Hcols.
  - apply Hcols. unfold ProductEdit.productPatch. by simplify_map_eq.
  - apply Hcols. unfold ProductEdit.productPatch. by simplify_map_eq.
  - intros col Hcol. rewrite (stored_db_update_row _ _ old) by done.
    by rewrite lookup_union_r.
  - intros id' Hne. by apply db_table_db_update_ne.
  - intros t Ht. unfold db_update. by rewrite lookup_alter_ne.
Qed.

Lemma handleUpdateProduct_stored_witness :
  stored "products" "p-9" "name"
    (db (final (ProductEdit.handleUpdateProduct ok edit1))) =
    Some (JString "Neem oil 1L") ∧
  stored "products" "p-9" "created_at"
    (db (final (ProductEdit.handleUpdateProduct ok edit1))) =
    Some (JString "2024-01-02T08:00:00Z").
Proof.
  pose proof (handleUpdateProduct_stored ok edit1 neem_edit product9
                eq_refl eq_refl) as Hstored.
  destruct Hstored as (_ & Hname & _ & Hkeep & _); [vm_compute; reflexivity|].
  split; [exact Hname|].
  etrans; [apply (Hkeep "created_at")|]; vm_compute; reflexivity.
Defined.

Lemma db_table_db_delete t id id' d :
  db_table t (db_delete t id d) !! id' =
  if decide (id = id') then None else db_table t d !! id'.
Proof.
  unfold db_table, db_delete. rewrite lookup_alter_eq.
  destruct (d !! t) as [tbl|]; cbn.
  - rewrite lookup_delete. by case_decide.
  - rewrite lookup_empty. by case_decide.
Qed.

(** X7.  [handleDeleteProduct] goes straight to the delete: it is the first
    action, no order and no other table is read or changed.  When the store
    accepts it the product is gone, every other product is still there, the
    success toast is shown (also when there was no such product) and one
    refresh is started.  On an error answer or a rejected promise the store
    is as before and no refresh is started. *)
Theorem handleDeleteProduct_outcomes (answer : Outcome Response) (id : string) w :
  let run := ProductEdit.handleDeleteProduct answer id w in
  events run !! 0 = Some (DbDelete "products" id) ∧
  ui (final run) = ui w ∧
  (∀ t, t ≠ "products" → db (final run) !! t = db w !! t) ∧
  (resolved_ok answer = true →
     result run = Ok () ∧
     db_table "products" (db (final run)) !! id = None ∧
     (∀ id', id' ≠ id →
        db_table "products" (db (final run)) !! id' =
        db_table "products" (db w) !! id') ∧
     pending (final run) = pending w ++ [ResumeFetchProducts] ∧
     events run = [DbDelete "products" id;
                   ToastSuccess "Product deleted successfully";
                   DbSelect "products"]) ∧
  (resolved_ok answer = false →
     db (final run) = db w ∧ pending (final run) = pending w ∧
     count is_external_call (events run) = 1).
Proof.
  intros run. subst run. split_and!.
  - destruct answer as [[d' [e'|]]|x']; run_more; done.
  - destruct answer as [[d' [e'|]]|x']; run_more; done.
  - intros t Ht. destruct answer as [[d' [e'|]]|x']; run_more; try done.
    unfold db_delete. by rewrite lookup_alter_ne.
  - intros Hok. destruct answer as [[d' [e'|]]|x']; try discriminate Hok.
    run_more. split_and!; try done.
    + rewrite db_table_db_delete. by case_decide.
    + intros id' Hne. rewrite db_table_db_delete. by case_decide.
  - intros Hok. destruct answer as [[d' [e'|]]|x']; try discriminate Hok;
      run_more; done.
Qed.

Lemma handleDeleteProduct_outcomes_witness :
  db_table "products"
    (db (final (ProductEdit.handleDeleteProduct ok "p-9" admin1))) !! "p-9" = None ∧
  db (final (ProductEdit.handleDeleteProduct (failed "denied") "p-9" admin1)) =
    db admin1.
Proof.
  split.
  - apply (handleDeleteProduct_outcomes ok "p-9" admin1). reflexivity.
  - apply (handleDeleteProduct_outcomes (failed "denied") "p-9" admin1).
    reflexivity.
Defined.

End Products.

(** ** The controls of an order card *)
Section OrderCards.
Import AdminPage.

Implicit Types (env : Env) (w : World State) (order : OrderCard.Order)
  (value : string).

Lemma updateData_empty status :
  updateData status (Some "") = {[ "status" := JString status ]}.
Proof. reflexivity. Qed.

Lemma updateData_tracking status value :
  value ≠ "" →
  updateData status (Some value) =
    <["tracking_number" := JString value]> {[ "status" := JString status ]}.
Proof. intros Hv. unfold updateData. by destruct value. Qed.

(** X8.  Leaving the tracking field does nothing, no write and no message,
    exactly when the order already has this very tracking number.  In every
    other case, an order without tracking number and an empty field
    included, the handler starts with a write to the order. *)
Theorem blur_silent_iff_unchanged env order value w :
  let run := OrderCard.onTrackingBlur env order value w in
  (events run = [] ↔ OrderCard.tracking_number order = Some value) ∧
  (OrderCard.tracking_number order = Some value → run = (Ok (), w, [])) ∧
  (OrderCard.tracking_number order ≠ Some value →
     events run !! 0 =
       Some (DbUpdate "orders"
               (updateData (OrderCard.status order) (Some value))
               (OrderCard.id order))).
Proof.
  intros run. subst run. unfold OrderCard.onTrackingBlur, OrderCard.tracking_differs.
  destruct (OrderCard.tracking_number order) as [t|] eqn:Ht.
  - destruct (String.eqb_spec value t) as [->|Hne]; cbn [negb].
    + split_and!; try done.
    + rewrite handleUpdateOrderStatus_events.
      split_and!; [split; [done|]; intros; by simplify_eq| intros; by simplify_eq |done].
  - rewrite handleUpdateOrderStatus_events. split_and!; try done.
Qed.

Lemma blur_silent_iff_unchanged_witness :
  OrderCard.onTrackingBlur env_ok card8 "T123" admin0 = (Ok (), admin0, []) ∧
  events (OrderCard.onTrackingBlur env_ok card7 "" admin0) !! 0 =
    Some (DbUpdate "orders" {[ "status" := JString "pending" ]} "7").
Proof.
  split.
  - apply (blur_silent_iff_unchanged env_ok card8 "T123" admin0). reflexivity.
  - apply (blur_silent_iff_unchanged env_ok card7 "" admin0). discriminate.
Defined.

Lemma handleUpdateOrderStatus_notifies env orderId status trackingNumber w :
  resolved_ok (update_orders env) = true →
  events (handleUpdateOrderStatus env orderId status trackingNumber w) !! 3 =
    Some (FnInvoke "send-order-notification"
            (notificationBody orderId status trackingNumber)) ∧
  count is_notify
    (events (handleUpdateOrderStatus env orderId status trackingNumber w)) = 1.
Proof.
  intros Hok. rewrite handleUpdateOrderStatus_events.
  destruct (update_orders env) as [[d [e|]]|x]; try discriminate Hok.
  cbn [error count is_notify]. rewrite count_after_commit_notify.
  by unfold after_commit.
Qed.

(** X9.  An order without tracking number whose tracking field is left
    empty is still written and announced: the write carries only the status
    shown on the card, the customer is sent a notification of that status
    without tracking number, and apart from the status column nothing in the
    store changes. *)
Theorem blur_empty_untracked_renotifies env order w :
  OrderCard.tracking_number order = None →
  resolved_ok (update_orders env) = true →
  let run := OrderCard.onTrackingBlur env order "" w in
  events run !! 0 =
    Some (DbUpdate "orders" {[ "status" := JString (OrderCard.status order) ]}
            (OrderCard.id order)) ∧
  events run !! 3 =
    Some (FnInvoke "send-order-notification"
            {[ "orderId" := JString (OrderCard.id order);
               "newStatus" := JString (OrderCard.status order) ]}) ∧
  count is_notify (events run) = 1 ∧
  (∀ id col, col ≠ "status" →
     stored "orders" id col (db (final run)) = stored "orders" id col (db w)).
Proof.
  intros Hnone Hok run. subst run.
  unfold OrderCard.onTrackingBlur, OrderCard.tracking_differs. rewrite Hnone.
  destruct (handleUpdateOrderStatus_notifies env (OrderCard.id order)
              (OrderCard.status order) (Some "") w Hok) as [Hinv Hcount].
  split_and!; [|exact Hinv|exact Hcount|].
  - by rewrite handleUpdateOrderStatus_events.
  - intros id col Hcol. apply handleUpdateOrderStatus_frame.
    rewrite updateData_empty. by apply lookup_singleton_ne.
Qed.

Lemma blur_empty_untracked_renotifies_witness :
  count is_notify (events (OrderCard.onTrackingBlur env_ok card7 "" admin0)) = 1.
Proof.
  apply (blur_empty_untracked_renotifies env_ok card7 admin0 eq_refl eq_refl).
Defined.

(** X10.  Leaving the tracking field with a new, non-empty value on an
    order that is in the store: after a successful write the order reads
    back that tracking number, whether or not it had one before, and the
    status shown on the card; every other column keeps its value, and the
    notification carries the status and the new tracking number. *)
Theorem blur_sets_tracking env order value w (old : row) :
  value ≠ "" →
  OrderCard.tracking_number order ≠ Some value →
  resolved_ok (update_orders env) = true →
  db_table "orders" (db w) !! OrderCard.id order = Some old →
  let run := OrderCard.onTrackingBlur env order value w in
  stored "orders" (OrderCard.id order) "tracking_number" (db (final run)) =
    Some (JString value) ∧
  stored "orders" (OrderCard.id order) "status" (db (final run)) =
    Some (JString (OrderCard.status order)) ∧
  (∀ col, col ≠ "status" → col ≠ "tracking_number" →
     stored "orders" (OrderCard.id order) col (db (final run)) = old !! col) ∧
  events run !! 3 =
    Some (FnInvoke "send-order-notification"
            {[ "orderId" := JString (OrderCard.id order);
               "newStatus" := JString (OrderCard.status order);
               "trackingNumber" := JString value ]}).
Proof.
  intros Hv Hdiff Hok Hold run. subst run.
  assert (OrderCard.tracking_differs value order = true) as Hd.
  { unfold OrderCard.tracking_differs.
    destruct (OrderCard.tracking_number order) as [t|]; [|done].
    destruct (String.eqb_spec value t) as [->|]; [by destruct Hdiff|done]. }
  unfold OrderCard.onTrackingBlur. rewrite Hd.
  rewrite handleUpdateOrderStatus_db, Hok.
  split_and!.
  - rewrite (stored_db_update_row _ _ old) by done.
    apply lookup_union_Some_l. rewrite updateData_tracking by done.
    apply lookup_insert_eq.
  - rewrite (stored_db_update_row _ _ old) by done.
    apply lookup_union_Some_l, updateData_status.
  - intros col Hs Ht. rewrite (stored_db_update_row _ _ old) by done.
    rewrite lookup_union_r; [done|]. by apply updateData_other.
  - destruct (handleUpdateOrderStatus_notifies env (OrderCard.id order)
                (OrderCard.status order) (Some value) w Hok) as [-> _].
    unfold notificationBody. by destruct value.
Qed.

Lemma blur_sets_tracking_witness :
  stored "orders" "8" "tracking_number"
    (db (final (OrderCard.onTrackingBlur env_ok card8 "T999" admin0))) =
    Some (JString "T999").
Proof.
  apply (blur_sets_tracking env_ok card8 "T999" admin0 order8);
    [discriminate|discriminate|reflexivity|vm_compute; reflexivity].
Defined.

(** X11.  Choosing a status in the selector never sends a tracking number:
    for every order, also one that has a tracking number, and every chosen
    value, the current status included, the write carries the status alone,
    every other column of every order keeps its value, and the notification
    sent after a successful write names the order and the status only. *)
Theorem select_omits_tracking env order value w :
  let run := OrderCard.onStatusChange env order value w in
  events run !! 0 =
    Some (DbUpdate "orders" {[ "status" := JString value ]} (OrderCard.id order)) ∧
  (∀ id col, col ≠ "status" →
     stored "orders" id col (db (final run)) = stored "orders" id col (db w)) ∧
  (resolved_ok (update_orders env) = true →
     events run !! 3 =
       Some (FnInvoke "send-order-notification"
               {[ "orderId" := JString (OrderCard.id order);
                  "newStatus" := JString value ]}) ∧
     count is_notify (events run) = 1).
Proof.
  intros run. subst run. unfold OrderCard.onStatusChange. split_and!.
  - by rewrite handleUpdateOrderStatus_events.
  - intros id col Hcol. apply handleUpdateOrderStatus_frame.
    by apply lookup_singleton_ne.
  - intros Hok.
    apply (handleUpdateOrderStatus_notifies env (OrderCard.id order) value None w Hok).
Qed.

Lemma select_omits_tracking_witness :
  events (OrderCard.onStatusChange env_ok card8 "shipped" admin0) !! 3 =
    Some (FnInvoke "send-order-notification"
            {[ "orderId" := JString "8"; "newStatus" := JString "shipped" ]}).
Proof.
  apply (select_omits_tracking env_ok card8 "shipped" admin0). reflexivity.
Defined.

End OrderCards.

(** ** The language hooks *)
Section Language.
Import AppHooks.

Implicit Types (language : string) (b : Browser) (e : StorageEvent).

Lemma isRTL_spec language :
  existsb (String.eqb language) rtlLanguages = true ↔ language ∈ rtlLanguages.
Proof.
  unfold rtlLanguages. cbn [existsb].
  rewrite !elem_of_cons, elem_of_nil, !orb_true_iff, !String.eqb_eq.
  split; [intros [?|[?|[?|[?|?]]]]|intros [?|[?|[?|[?|[]]]]]]; auto; done.
Qed.

(** X12.  [useRTLSupport] sets the direction to "rtl" exactly for the four
    bare codes ar, he, fa and ur, and to "ltr" for everything else; a tag of
    any other length than two, such as a code with a region, is therefore
    laid out left to right.  The document language and the stored preference
    become the language itself, no other stored key is touched, and running
    the hook again changes nothing. *)
Theorem rtl_only_for_bare_codes language b :
  (dir (useRTLSupport language b) = "rtl" ↔ language ∈ rtlLanguages) ∧
  (language ∉ rtlLanguages → dir (useRTLSupport language b) = "ltr") ∧
  (String.length language ≠ 2 → dir (useRTLSupport language b) = "ltr") ∧
  lang (useRTLSupport language b) = language ∧
  localStorage (useRTLSupport language b) !! "i18nextLng" = Some language ∧
  (∀ k, k ≠ "i18nextLng" →
     localStorage (useRTLSupport language b) !! k = localStorage b !! k) ∧
  useRTLSupport language (useRTLSupport language b) = useRTLSupport language b.
Proof.
  unfold useRTLSupport. cbn [dir lang localStorage].
  pose proof (isRTL_spec language) as Hspec.
  assert (language ∈ rtlLanguages → String.length language = 2) as Hlen.
  { unfold rtlLanguages. intros Hin.
    repeat (apply elem_of_cons in Hin as [->|Hin]; [done|]).
    by apply elem_of_nil in Hin. }
  split_and!.
  - destruct (existsb _ _); [by rewrite <- Hspec|].
    split; [done|]. intros Hin%Hspec. discriminate.
  - intros Hnot. destruct (existsb _ _); [|done].
    destruct Hnot. by apply Hspec.
  - intros Hne. destruct (existsb _ _); [|done].
    destruct Hne. by apply Hlen, Hspec.
  - done.
  - apply lookup_insert_eq.
  - intros k Hk. by rewrite lookup_insert_ne.
  - by rewrite insert_insert_eq.
Qed.

Lemma rtl_only_for_bare_codes_witness :
  dir (useRTLSupport "ar-EG" (mkBrowser "ltr" "en" ∅)) = "ltr" ∧
  dir (useRTLSupport "ar" (mkBrowser "ltr" "en" ∅)) = "rtl".
Proof.
  split.
  - apply (rtl_only_for_bare_codes "ar-EG" (mkBrowser "ltr" "en" ∅)).
    cbn. lia.
  - apply (rtl_only_for_bare_codes "ar" (mkBrowser "ltr" "en" ∅)).
    unfold rtlLanguages. apply list_elem_of_here.
Defined.

(** X13.  A storage event changes the language exactly when its key is
    "i18nextLng" and its new value is present, non-empty and different from
    the current language; the language becomes that value.  Once the
    language has been changed the same event is ignored, and so is the echo
    of the preference that [useRTLSupport] has just stored for the current
    language: the two hooks cannot feed each other. *)
Theorem storage_change_settles language e :
  (∀ v, handleStorageChange language e = Some v ↔
        key e = Some "i18nextLng" ∧ newValue e = Some v ∧ v ≠ "" ∧
        v ≠ language) ∧
  (∀ v, handleStorageChange language e = Some v →
        handleStorageChange v e = None) ∧
  (∀ b, handleStorageChange language
          (mkStorageEvent (Some "i18nextLng")
             (localStorage (useRTLSupport language b) !! "i18nextLng")) = None).
Proof.
  assert (∀ l v, handleStorageChange l e = Some v ↔
                 key e = Some "i18nextLng" ∧ newValue e = Some v ∧ v ≠ "" ∧
                 v ≠ l) as Hiff.
  { intros l v. unfold handleStorageChange.
    destruct (key e) as [k|], (newValue e) as [v'|];
      try (split; [done|by intros (? & ? & _)]).
    destruct (String.eqb_spec k "i18nextLng") as [->|Hk]; cbn [andb].
    - destruct v' as [|c v']; cbn [string_truthy andb].
      + split; [done|]. by intros (_ & [= <-] & ? & _).
      + destruct (String.eqb_spec (String c v') l) as [->|Hl]; cbn [negb].
        * split; [done|]. by intros (_ & [= <-] & _ & ?).
        * split; [by intros [= <-]|by intros (_ & [= <-] & _)].
    - split; [done|]. intros ([= ->] & _). done. }
  split_and!.
  - intros v. apply Hiff.
  - intros v (Hk & Hv & Hne & _)%Hiff.
    unfold handleStorageChange. rewrite Hk, Hv.
    rewrite (String.eqb_refl v). cbn [negb]. by rewrite andb_false_r.
  - intros b. unfold handleStorageChange, useRTLSupport. cbn [key newValue localStorage].
    rewrite lookup_insert_eq.
    rewrite (String.eqb_refl language). cbn [negb]. by rewrite andb_false_r.
Qed.

Lemma storage_change_settles_witness :
  handleStorageChange "hi" (mkStorageEvent (Some "i18nextLng") (Some "hi")) = None.
Proof.
  pose proof (storage_change_settles "en"
                (mkStorageEvent (Some "i18nextLng") (Some "hi")))
    as (_ & Hafter & _).
  apply Hafter. reflexivity.
Defined.

End Language.

(** ** Routes and navigation links *)
Section Routes.
Import App.

Implicit Types (ctx : AuthContext) (p : Page) (path : string).

(** X14.  What the five public routes render does not depend on the
    session: home, prediction, analytics, shop and contact show their page
    while the session is loading, for a visitor, a customer and an
    administrator alike, never the spinner and never a redirect. *)
Theorem public_routes_ignore_session ctx ctx' path :
  path ∈ ["/"; "/predict"; "/analytics"; "/shop"; "/contact"] →
  AppContent ctx path = AppContent ctx' path ∧
  ∃ p, AppContent ctx path = Show p ∧ p ≠ NotFound.
Proof.
  intros Hin.
  repeat (apply elem_of_cons in Hin as [->|Hin]; [by split; [|eexists]|]).
  by apply elem_of_nil in Hin.
Qed.

Lemma public_routes_ignore_session_witness :
  AppContent (mkAuthContext None false true) "/shop" =
  AppContent (mkAuthContext (Some "u-asha") true false) "/shop".
Proof.
  apply (public_routes_ignore_session (mkAuthContext None false true)
           (mkAuthContext (Some "u-asha") true false) "/shop").
  in_trace.
Defined.

(** X15.  The Authenticated gate lets its page through exactly when the
    session is loaded and has an account; the Administrator gate exactly
    when, in addition, the account is an administrator.  So whoever passes
    the Administrator gate passes the Authenticated gate, and for such a
    session every gated route shows its own page. *)
Theorem admin_passes_every_gate ctx p :
  (decision (ProtectedRoute ctx (Show p)) = Allow ↔
   loading ctx = false ∧ is_Some (user ctx)) ∧
  (decision (AdminRoute ctx (Show p)) = Allow ↔
   loading ctx = false ∧ is_Some (user ctx) ∧ isAdmin ctx = true) ∧
  (∀ q, decision (AdminRoute ctx (Show p)) = Allow →
     AdminRoute ctx (Show p) = Show p ∧
     ProtectedRoute ctx (Show q) = Show q) ∧
  (decision (AdminRoute ctx (Show p)) = Allow →
     AppContent ctx "/history" = Show PredictionHistory ∧
     AppContent ctx "/cart" = Show Cart ∧
     AppContent ctx "/checkout" = Show Checkout ∧
     AppContent ctx "/orders" = Show Orders ∧
     AppContent ctx "/admin" = Show AdminPage).
Proof.
  destruct ctx as [[u|] [|] [|]]; cbn; split_and!;
    try (split; [done|by intros (? & [? ?] & ?)]);
    try (split; [done|by intros (? & [? ?])]);
    try (split; [done|by intros (? & ?)]);
    try (split; [intros _; by eauto|done]);
    try done.
Qed.

Lemma admin_passes_every_gate_witness :
  AppContent (mkAuthContext (Some "u-admin") true false) "/orders" = Show Orders.
Proof.
  pose proof (admin_passes_every_gate
                (mkAuthContext (Some "u-admin") true false) AdminPage)
    as (_ & _ & _ & Hroutes).
  apply Hroutes. reflexivity.
Defined.

End Routes.

Section NavLinks.
Import Navbar.

Variable t : string → string.

Implicit Types (isAuthenticated isAdmin : bool) (ctx : App.AuthContext).

Lemma active_at_most_once (pathname : string) (paths : list string) :
  NoDup paths →
  length (List.filter (isActive pathname) paths) ≤ 1.
Proof.
  induction 1 as [|x l Hx _ IH]; cbn; [lia|].
  unfold isActive at 1. destruct (String.eqb_spec pathname x) as [->|Hne]; [|done].
  cbn. assert (List.filter (isActive x) l = []) as ->; [|cbn; lia].
  clear IH. induction l as [|y l IH]; [done|].
  apply not_elem_of_cons in Hx as [Hxy Hx]. cbn. unfold isActive at 1.
  destruct (String.eqb_spec x y) as [->|_]; [done|]. by apply IH.
Qed.

(** X16.  The navigation links have pairwise distinct paths, so for any
    location at most one link is active.  Home comes first and Contact last;
    the History and Orders links are there exactly for an authenticated
    visitor and the Admin link exactly for an administrator, which gives
    five to eight links. *)
Theorem navLinks_shape isAuthenticated isAdmin :
  let paths := path <$> navLinks t isAuthenticated isAdmin in
  NoDup paths ∧
  (∀ pathname, length (List.filter (isActive pathname) paths) ≤ 1) ∧
  head paths = Some "/" ∧
  last paths = Some "/contact" ∧
  ("/history" ∈ paths ↔ isAuthenticated = true) ∧
  ("/orders" ∈ paths ↔ isAuthenticated = true) ∧
  ("/admin" ∈ paths ↔ isAdmin = true) ∧
  length paths =
    5 + (if isAuthenticated then 2 else 0) + (if isAdmin then 1 else 0).
Proof.
  intros paths.
  assert (NoDup paths) as Hnodup.
  { subst paths. destruct isAuthenticated, isAdmin; cbn;
      apply (bool_decide_unpack _); vm_compute; reflexivity. }
  split_and!; [done|by intros; apply active_at_most_once|..];
    subst paths; destruct isAuthenticated, isAdmin; cbn; try done.
  all: split; [intros Hin; trace_cases Hin|done || (intros _; in_trace)].
Qed.

(** X17.  Every link of the navigation bar is a route of the application.
    As [AppContent] feeds the bar, and once the session is loaded with the
    administrator flag set only for a bound account, every link that is
    shown leads to a page: none of them ends in a redirect or at the
    spinner.  A visitor without account is shown no link to a gated route. *)
Theorem navLinks_lead_to_pages ctx :
  (∀ isAuthenticated isAdmin link ctx',
     link ∈ navLinks t isAuthenticated isAdmin →
     App.AppContent ctx' (path link) ≠ App.Show App.NotFound) ∧
  (App.loading ctx = false →
   (App.isAdmin ctx = true → is_Some (App.user ctx)) →
   ∀ link, link ∈ AppContent_navLinks t ctx →
     ∃ p, App.AppContent ctx (path link) = App.Show p ∧ p ≠ App.NotFound) ∧
  (App.user ctx = None → App.isAdmin ctx = false →
   ∀ link, link ∈ AppContent_navLinks t ctx → path link ∉ App.gated_paths).
Proof.
  split_and!.
  - intros a b link ctx' Hin.
    destruct ctx' as [[u|] [|] [|]], a, b; cbn in Hin; trace_cases Hin;
      subst link; cbn; done.
  - intros Hl Hadm link Hin.
    destruct ctx as [[u|] [|] [|]]; cbn in Hl, Hadm; try discriminate Hl;
      try (by destruct (Hadm eq_refl));
      cbn in Hin; trace_cases Hin; subst link; cbn; by eexists.
  - intros Hu Ha link Hin.
    destruct ctx as [[u|] [|] [|]]; cbn in Hu, Ha; try discriminate;
      cbn in Hin; trace_cases Hin; subst link; cbn;
      unfold App.gated_paths; rewrite !not_elem_of_cons;
      (split_and!; try discriminate; apply not_elem_of_nil).
Qed.

End NavLinks.

Lemma navLinks_shape_witness :
  "/admin" ∈ Navbar.path <$> Navbar.navLinks (λ k, k) true true.
Proof.
  apply (navLinks_shape (λ k, k) true true). reflexivity.
Defined.

Lemma navLinks_lead_to_pages_witness :
  ∃ p, App.AppContent (App.mkAuthContext (Some "u-admin") true false) "/admin" =
         App.Show p ∧ p ≠ App.NotFound.
Proof.
  pose proof (navLinks_lead_to_pages (λ k, k)
                (App.mkAuthContext (Some "u-admin") true false))
    as (_ & Hshown & _).
  apply (Hshown eq_refl (λ _, ltac:(by eexists))
           (Navbar.mkNavLink "/admin" "nav.admin" Navbar.Shield)).
  cbn. in_trace.
Defined.

(** ** The sign-in form *)
Section Form.
Import AuthPage.

Variable email_ok : string → bool.

Implicit Types (env : Env) (w : World State) (f : FormData).

Lemma handleSubmit_final env w :
  final (handleSubmit email_ok env w) =
  mkWorld
    (mkState (isSignup (ui w)) (showPassword (ui w)) false (formData (ui w))
       (fieldErrors (AuthForm.issues email_ok (ui w))))
    (db w) (pending w).
Proof.
  unfold AuthForm.issues. destruct w as [[[|] sp sub f errs] d pend]; cbn [ui isSignup formData].
  - destruct env as [sp' so ip iid uo inv [[d' [e'|]]|x'] si];
      run_more; cbn [isSignup formData showPassword];
      destruct (signupSchema email_ok f); reflexivity.
  - destruct env as [sp' so ip iid uo inv su [[d' [e'|]]|x']];
      run_more; cbn [isSignup formData showPassword];
      destruct (loginSchema email_ok f); reflexivity.
Qed.

(** X18.  A submission never throws and never leaves the form busy: whatever
    the schema says and whatever the session store answers, error answer and
    rejected promise included, the submitting flag ends up false.  The mode,
    the password visibility and the typed data are kept, the record store is
    not touched, and at most one call is made. *)
Theorem handleSubmit_leaves_form_ready env w :
  let run := handleSubmit email_ok env w in
  result run = Ok () ∧
  submitting (ui (final run)) = false ∧
  isSignup (ui (final run)) = isSignup (ui w) ∧
  showPassword (ui (final run)) = showPassword (ui w) ∧
  formData (ui (final run)) = formData (ui w) ∧
  db (final run) = db w ∧
  pending (final run) = pending w ∧
  count is_external_call (events run) ≤ 1 ∧
  count is_write (events run) = 0.
Proof.
  intros run. subst run.
  rewrite handleSubmit_final, handleSubmit_result, handleSubmit_events.
  cbn [ui db pending submitting isSignup showPassword formData].
  split_and!; try done.
  - destruct (isSignup (ui w)); cbn zeta.
    + destruct (signupSchema _ _); [|cbn; lia].
      destruct (signUp_result env) as [[d [e|]]|x]; cbn; lia.
    + destruct (loginSchema _ _); [|cbn; lia].
      destruct (signIn_result env) as [[d [e|]]|x]; cbn; lia.
  - destruct (isSignup (ui w)); cbn zeta.
    + destruct (signupSchema _ _); [|done].
      by destruct (signUp_result env) as [[d [e|]]|x].
    + destruct (loginSchema _ _); [|done].
      by destruct (signIn_result env) as [[d [e|]]|x].
Qed.

(** X19.  After every submission the error of a field is set exactly when
    that field fails the check of the current mode, with the message of that
    check, whatever errors were shown before: in sign-up mode a name under
    two code units, a malformed email, a password under six code units; in
    sign-in mode a malformed email or an empty password, and never the name.
    A form with a failing field is not sent: no call, no toast, no
    navigation. *)
Theorem errors_match_failing_fields env w :
  let f := formData (ui w) in
  let after := errors (ui (final (handleSubmit email_ok env w))) in
  (isSignup (ui w) = true →
     after !! "name" =
       (if js_length (name f) <? 2
        then Some "Name must be at least 2 characters" else None) ∧
     after !! "email" =
       (if email_ok (email f) then None else Some "Invalid email address") ∧
     after !! "password" =
       (if js_length (password f) <? 6
        then Some "Password must be at least 6 characters" else None)) ∧
  (isSignup (ui w) = false →
     after !! "name" = None ∧
     after !! "email" =
       (if email_ok (email f) then None else Some "Invalid email address") ∧
     after !! "password" =
       (if js_length (password f) <? 1
        then Some "Password is required" else None)) ∧
  (AuthForm.issues email_ok (ui w) ≠ [] →
     events (handleSubmit email_ok env w) = []).
Proof.
  intros f after. subst f after.
  rewrite handleSubmit_final, handleSubmit_events. cbn [ui errors].
  unfold AuthForm.issues. split_and!.
  - intros ->. unfold signupSchema, min_length, email_check.
    destruct (js_length (name _) <? 2), (email_ok _),
      (js_length (password _) <? 6); cbn; split_and!; by simplify_map_eq.
  - intros ->. unfold loginSchema, min_length, email_check.
    destruct (email_ok _), (js_length (password _) <? 1); cbn;
      split_and!; by simplify_map_eq.
  - intros Hne. cbn zeta. destruct (isSignup (ui w)).
    + by destruct (signupSchema _ _).
    + by destruct (loginSchema _ _).
Qed.

(** X20.  In sign-in mode the error text of the session store is never
    shown: the only error toasts a sign-in can raise are the fixed
    "Invalid email or password" and, for a rejected promise, the fixed
    "Something went wrong. Please try again.".  In sign-up mode an error
    answer is shown with the store's own message. *)
Theorem sign_in_hides_store_error env w :
  (isSignup (ui w) = false →
     ∀ msg, ToastError msg ∈ events (handleSubmit email_ok env w) →
       msg = "Invalid email or password" ∨
       msg = "Something went wrong. Please try again.") ∧
  (isSignup (ui w) = false →
     ∀ r e, signIn_result env = Resolved r → error r = Some e →
       loginSchema email_ok (formData (ui w)) = [] →
       events (handleSubmit email_ok env w) =
         [AuthSignIn (email (formData (ui w))) (password (formData (ui w)));
          ToastError "Invalid email or password"]) ∧
  (isSignup (ui w) = true →
     ∀ r e, signUp_result env = Resolved r → error r = Some e →
       signupSchema email_ok (formData (ui w)) = [] →
       events (handleSubmit email_ok env w) =
         [AuthSignUp (email (formData (ui w))) (password (formData (ui w)))
            (name (formData (ui w)));
          ToastError e]).
Proof.
  rewrite handleSubmit_events. split_and!.
  - intros -> msg Hin. cbn zeta in Hin.
    destruct (loginSchema _ _); [|by apply elem_of_nil in Hin].
    destruct (signIn_result env) as [[d [e|]]|x]; cbn [error] in Hin;
      trace_cases Hin; simplify_eq; auto.
  - intros Hs r e Hr He Hsch. rewrite Hs. cbn zeta. rewrite Hsch, Hr.
    destruct r as [d e']. cbn in He. by subst e'.
  - intros Hs r e Hr He Hsch. rewrite Hs. cbn zeta. rewrite Hsch, Hr.
    destruct r as [d e']. cbn in He. by subst e'.
Qed.

(** X21.  In sign-up mode the session store is called exactly when the name
    has at least two code units, the email is well formed and the password
    has at least six code units; the call then carries the typed email,
    password and name and is the first action. *)
Theorem signUp_called_iff_valid env w :
  isSignup (ui w) = true →
  let f := formData (ui w) in
  let run := handleSubmit email_ok env w in
  (count is_external_call (events run) = 1 ↔
   2 ≤ js_length (name f) ∧ email_ok (email f) = true ∧
   6 ≤ js_length (password f)) ∧
  (count is_external_call (events run) = 1 →
   events run !! 0 = Some (AuthSignUp (email f) (password f) (name f))).
Proof.
  intros Hs f run. subst f run.
  rewrite handleSubmit_events, Hs. cbn zeta.
  rewrite <- signupSchema_nil.
  destruct (signupSchema _ _) as [|i l].
  - split; [|done]. split; [done|intros _].
    by destruct (signUp_result env) as [[d [e|]]|x].
  - split; [split; done|done].
Qed.

End Form.

Section Typing.
Import AuthPage AuthForm.

Implicit Types (w : World State) (field : Field) (value : string).

(** X22.  Typing into a field replaces that field of the form and no other,
    and hides the error shown under that field and no other; the mode and
    the busy flag are kept, and nothing is sent or shown. *)
Theorem typing_clears_own_error field value w :
  let run := handleChange field value w in
  result run = Ok () ∧
  events run = [] ∧
  getField field (formData (ui (final run))) = value ∧
  shown_error (errors (ui (final run))) field = None ∧
  (∀ other, other ≠ field →
     getField other (formData (ui (final run))) =
       getField other (formData (ui w)) ∧
     shown_error (errors (ui (final run))) other =
       shown_error (errors (ui w)) other) ∧
  isSignup (ui (final run)) = isSignup (ui w) ∧
  submitting (ui (final run)) = submitting (ui w) ∧
  db (final run) = db w.
Proof.
  intros run. subst run. unfold handleChange. run_more.
  cbn [setFormData setErrors formData errors isSignup submitting].
  split_and!; try done.
  - by destruct field.
  - unfold shown_error. by rewrite lookup_insert_eq.
  - intros other Hne. split.
    + by destruct field, other.
    + unfold shown_error. rewrite lookup_insert_ne; [done|].
      by destruct field, other.
Qed.

End Typing.

Lemma errors_match_failing_fields_witness :
  AuthPage.errors
    (ui (final (AuthPage.handleSubmit has_at env_ok (auth0 true li))))
    !! "name" = Some "Name must be at least 2 characters".
Proof.
  pose proof (errors_match_failing_fields has_at env_ok (auth0 true li))
    as (Hsignup & _).
  apply Hsignup. reflexivity.
Defined.

(** A sign-up whose name is a single code point of three bytes is stopped
    by the schema: nothing is sent. *)
Example signup_short_name_not_sent :
  events (AuthPage.handleSubmit has_at env_ok (auth0 true li)) = [].
Proof. reflexivity. Qed.

Lemma sign_in_hides_store_error_witness :
  events (AuthPage.handleSubmit has_at
            (mkEnv ok ok ok "p-1" ok ok ok (failed "Email not confirmed"))
            (auth0 false asha)) =
    [AuthSignIn "asha@x.com" "secret1"; ToastError "Invalid email or password"].
Proof.
  pose proof (sign_in_hides_store_error has_at
                (mkEnv ok ok ok "p-1" ok ok ok (failed "Email not confirmed"))
                (auth0 false asha)) as (_ & Hmask & _).
  apply (Hmask eq_refl (mkResponse None (Some "Email not confirmed"))
           "Email not confirmed" eq_refl eq_refl eq_refl).
Defined.

Lemma signUp_called_iff_valid_witness :
  events (AuthPage.handleSubmit has_at env_ok (auth0 true asha)) !! 0 =
    Some (AuthSignUp "asha@x.com" "secret1" "Asha").
Proof.
  apply (signUp_called_iff_valid has_at env_ok (auth0 true asha) eq_refl).
  reflexivity.
Defined.

(** ** The weather alerts *)
Section Weather.
Import WeatherAlerts.

Variable show : number → string.

Implicit Types (month : nat) (weather : WeatherData) (n : number).

Lemma number_gt_spec n (k : Q) :
  number_gt n k = true ↔ n = PosInf ∨ ∃ q, n = Num q ∧ (k < q)%Q.
Proof.
  destruct n as [| | |q]; cbn.
  - split; [done|]. by intros [?|(q & ? & _)].
  - split; [by left|done].
  - split; [done|]. by intros [?|(q & ? & _)].
  - rewrite negb_true_iff. split.
    + intros Hle. right. exists q. split; [done|].
      apply Qnot_le_lt. intros Hq. apply Qle_bool_iff in Hq. congruence.
    + intros [?|(q' & [= <-] & Hlt)]; [done|].
      destruct (Qle_bool q k) eqn:Hle; [|done].
      apply Qle_bool_iff in Hle. by apply Qlt_not_le in Hlt.
Qed.

(** The ids of the alerts, piece by piece. *)
Lemma generateAlerts_ids month weather :
  id <$> generateAlerts show month weather =
  (if (5 <=? month) && (month <=? 8) then ["1"]
   else if (9 <=? month) && (month <=? 11) then ["2"]
   else if (2 <=? month) && (month <=? 4) then ["3"] else []) ++
  (if number_gt (temperature weather) 35 then ["4"] else []) ++
  (if number_gt (humidity weather) 80 then ["5"] else []) ++
  (if number_gt (rainfall weather) 20 then ["6"] else []) ++
  (if number_gt (windSpeed weather) 30 then ["7"] else []) ++
  ["8"].
Proof.
  unfold generateAlerts. rewrite !fmap_app.
  repeat f_equal;
    repeat match goal with |- context [if ?b then _ else _] => destruct b end;
    reflexivity.
Qed.

(** X23.  Whatever the month and the weather, the alerts end with the soil
    testing reminder, so the list is never empty; there are at most six
    alerts and their ids are pairwise distinct. *)
Theorem alerts_shape month weather :
  let alerts := generateAlerts show month weather in
  (∃ soil, last alerts = Some soil ∧ id soil = "8" ∧ priority soil = low ∧
           title soil = "Soil Testing Reminder") ∧
  1 ≤ length alerts ≤ 6 ∧
  NoDup (id <$> alerts).
Proof.
  intros alerts. split_and!.
  - subst alerts. unfold generateAlerts. rewrite !app_assoc, last_snoc.
    by eexists.
  - rewrite <- (length_fmap id). subst alerts. rewrite generateAlerts_ids.
    rewrite !length_app.
    repeat match goal with |- context [if ?b then _ else _] => destruct b end;
      cbn; lia.
  - rewrite <- (length_fmap id). subst alerts. rewrite generateAlerts_ids.
    rewrite !length_app.
    repeat match goal with |- context [if ?b then _ else _] => destruct b end;
      cbn; lia.
  - subst alerts. rewrite generateAlerts_ids.
    repeat match goal with |- context [if ?b then _ else _] => destruct b end;
      cbn; apply (bool_decide_unpack _); vm_compute; reflexivity.
Qed.

Lemma elem_of_optional (x y : string) (b : bool) :
  x ∈ (if b then [y] else []) ↔ b = true ∧ x = y.
Proof.
  destruct b.
  - rewrite list_elem_of_singleton. by split; [|intros [_ ?]].
  - rewrite elem_of_nil. by split; [|intros [? _]].
Qed.

Lemma weather_alert_raised month weather (x : string) :
  x ∈ ["4"; "5"; "6"; "7"] →
  x ∈ id <$> generateAlerts show month weather ↔
  (x = "4" ∧ number_gt (temperature weather) 35 = true) ∨
  (x = "5" ∧ number_gt (humidity weather) 80 = true) ∨
  (x = "6" ∧ number_gt (rainfall weather) 20 = true) ∨
  (x = "7" ∧ number_gt (windSpeed weather) 30 = true).
Proof.
  intros Hx. rewrite generateAlerts_ids, !elem_of_app, !elem_of_optional,
    list_elem_of_singleton.
  assert (x ∉ (if (5 <=? month) && (month <=? 8) then ["1"]
               else if (9 <=? month) && (month <=? 11) then ["2"]
               else if (2 <=? month) && (month <=? 4) then ["3"] else []))
    as Hseason.
  { intros Hin.
    repeat match type of Hin with context [if ?b then _ else _] => destruct b end;
      trace_cases Hin; subst x; trace_cases Hx. }
  assert (x ≠ "8") as H8 by (intros ->; trace_cases Hx).
  split.
  - intros [?|[[? ?]|[[? ?]|[[? ?]|[[? ?]|?]]]]]; auto 10; done.
  - intros [[? ?]|[[? ?]|[[? ?]|[? ?]]]]; auto 10.
Qed.

(** X24.  The four weather alerts are raised by strict thresholds: the heat
    alert exactly when the temperature is above 35, the humidity alert above
    80, the rainfall alert above 20, the wind alert above 30.  A reading
    that is not a number, or exactly at its threshold, raises nothing.  The
    seasonal alert is the planting one from June to September, the sowing
    one from October to December, the harvest one from March to May, and
    there is none in January and February. *)
Theorem alert_thresholds month weather :
  let ids : list string := id <$> generateAlerts show month weather in
  let above (n : number) (k : Q) :=
    n = PosInf ∨ ∃ q, n = Num q ∧ (k < q)%Q in
  ("4" ∈ ids ↔ above (temperature weather) 35%Q) ∧
  ("5" ∈ ids ↔ above (humidity weather) 80%Q) ∧
  ("6" ∈ ids ↔ above (rainfall weather) 20%Q) ∧
  ("7" ∈ ids ↔ above (windSpeed weather) 30%Q) ∧
  ("1" ∈ ids ↔ 5 ≤ month ≤ 8) ∧
  ("2" ∈ ids ↔ 9 ≤ month ≤ 11) ∧
  ("3" ∈ ids ↔ 2 ≤ month ≤ 4) ∧
  (month < 2 → ∀ x, x ∈ ["1"; "2"; "3"] → x ∉ ids).
Proof.
  intros ids above. subst ids above. cbn beta.
  assert (∀ x, x ∈ ["1"; "2"; "3"] →
            x ∈ id <$> generateAlerts show month weather ↔
            (x = "1" ∧ 5 ≤ month ≤ 8) ∨ (x = "2" ∧ 9 ≤ month ≤ 11) ∨
            (x = "3" ∧ 2 ≤ month ≤ 4)) as Hseason.
  { intros x Hx.
    rewrite generateAlerts_ids, !elem_of_app, !elem_of_optional,
      list_elem_of_singleton.
    assert (x ≠ "4" ∧ x ≠ "5" ∧ x ≠ "6" ∧ x ≠ "7" ∧ x ≠ "8")
      as (? & ? & ? & ? & ?)
      by (split_and!; intros ->; trace_cases Hx).
    destruct (Nat.leb_spec 5 month), (Nat.leb_spec month 8),
      (Nat.leb_spec 9 month), (Nat.leb_spec month 11),
      (Nat.leb_spec 2 month), (Nat.leb_spec month 4); cbn [andb];
      rewrite ?list_elem_of_singleton, ?elem_of_nil;
      (split;
       [intros [?|[[? ?]|[[? ?]|[[? ?]|[[? ?]|?]]]]]; try done;
        auto 10 with lia
       |intros [[? ?]|[[? ?]|[? ?]]]; first [lia|auto]]). }
  split_and!.
  - rewrite <- number_gt_spec, weather_alert_raised by in_trace.
    split; [intros [[_ ?]|[[? _]|[[? _]|[? _]]]]; done|auto].
  - rewrite <- number_gt_spec, weather_alert_raised by in_trace.
    split; [intros [[? _]|[[_ ?]|[[? _]|[? _]]]]; done|auto].
  - rewrite <- number_gt_spec, weather_alert_raised by in_trace.
    split; [intros [[? _]|[[? _]|[[_ ?]|[? _]]]]; done|auto 10].
  - rewrite <- number_gt_spec, weather_alert_raised by in_trace.
    split; [intros [[? _]|[[? _]|[[? _]|[_ ?]]]]; done|auto 10].
  - rewrite Hseason by in_trace.
    split; [intros [[_ ?]|[[? _]|[? _]]]; done|auto].
  - rewrite Hseason by in_trace.
    split; [intros [[? _]|[[_ ?]|[? _]]]; done|auto].
  - rewrite Hseason by in_trace.
    split; [intros [[? _]|[[? _]|[_ ?]]]; done|auto].
  - intros Hm x Hx. rewrite Hseason by done.
    intros [[_ ?]|[[_ ?]|[_ ?]]]; lia.
Qed.

(** X25.  The badge on the weather button counts the high-priority alerts:
    one for the seasonal alert, which exists from March to December, plus
    one for the heat alert.  It is at most two and does not depend on
    humidity, rainfall or wind. *)
Theorem high_priority_badge month weather :
  highPriorityCount (generateAlerts show month weather) =
    (if (2 <=? month) && (month <=? 11) then 1 else 0) +
    (if number_gt (temperature weather) 35 then 1 else 0) ∧
  highPriorityCount (generateAlerts show month weather) ≤ 2.
Proof.
  assert (highPriorityCount (generateAlerts show month weather) =
          (if (2 <=? month) && (month <=? 11) then 1 else 0) +
          (if number_gt (temperature weather) 35 then 1 else 0)) as Heq.
  { unfold highPriorityCount, generateAlerts.
    rewrite !List.filter_app, !length_app.
    destruct (number_gt (temperature weather) 35),
      (number_gt (humidity weather) 80), (number_gt (rainfall weather) 20),
      (number_gt (windSpeed weather) 30);
      destruct (Nat.leb_spec 5 month), (Nat.leb_spec month 8),
        (Nat.leb_spec 9 month), (Nat.leb_spec month 11),
        (Nat.leb_spec 2 month), (Nat.leb_spec month 4); cbn; lia. }
  split; [done|]. rewrite Heq.
  destruct (_ && _), (number_gt _ _); lia.
Qed.

End Weather.

Lemma alert_thresholds_witness :
  "1" ∉ WeatherAlerts.id <$>
          WeatherAlerts.generateAlerts (λ _, "") 0
            (WeatherAlerts.mkWeatherData (Num 35) NaN "Clear" (Num 12) (Num 0)
               None None None None).
Proof.
  pose proof (alert_thresholds (λ _, "") 0
                (WeatherAlerts.mkWeatherData (Num 35) NaN "Clear" (Num 12)
                   (Num 0) None None None None))
    as (_ & _ & _ & _ & _ & _ & _ & Hwinter).
  apply Hwinter; [lia|in_trace].
Defined.
